(** * YaMDb API: serializer validation and relational schema

    A shallow embedding of [api_yamdb/api/serializers.py] and of the schema
    migration [api_yamdb/reviews/migrations/0002_initial.py].

    The Python code is a set of declarations interpreted by Django and by
    Django REST framework.  The embedding therefore has three layers:
    - [Py]: the few Python values the serializers handle and [str];
    - [Orm]: tables of rows, the operations of the migration and what the
      ORM does with them (lookup, filtering, insertion under the declared
      uniqueness constraints, deletion along the declared foreign keys);
    - one module per serializer class of [serializers.py], holding its
      declared fields and its [validate] / [create] methods, on top of
      [Drf], the part of the framework's [ModelSerializer] they rely on. *)

From Stdlib Require Import ZArith NArith HexString.
From stdpp Require Import gmap strings pretty list fin_maps.

#[local] Set Warnings "-clear-no-such-hyp".

Open Scope string_scope.
Open Scope Z_scope.

(** ** Python values *)

Module Py.

(** A function object is identified by its name and its address in the
    running interpreter. *)
Inductive value :=
| PNone
| PStr (s : string)
| PInt (n : Z)
| PFunc (name : string) (addr : N).

#[global] Instance value_eq_dec : EqDecision value.
Proof. solve_decision. Defined.

(** [str(v)] *)
Definition str (v : value) : string :=
  match v with
  | PNone => "None"
  | PStr s => s
  | PInt n => pretty n
  | PFunc name addr => "<function " ++ name ++ " at " ++ HexString.of_N addr ++ ">"
  end.

(** [d.get(k)]: [None] when the key is absent. *)
Definition get (d : gmap string value) (k : string) : value :=
  default PNone (d !! k).

(** Exceptions raised by the code under study: a validation error carries
    a message or, when raised for the fields of a serializer, one message
    per field. *)
Inductive exn :=
| ValidationError (msg : string)
| ValidationErrors (errors : list (string * string))
| Http404
| IntegrityError (constraint : string).

Inductive result (A : Type) :=
| Ok (a : A)
| Raise (e : exn).
Arguments Ok {A} a.
Arguments Raise {A} e.

Definition bind {A B} (r : result A) (k : A → result B) : result B :=
  match r with
  | Ok a => k a
  | Raise e => Raise e
  end.

Definition is_ok {A} (r : result A) : bool :=
  match r with Ok _ => true | Raise _ => false end.

End Py.
Import Py.

Notation "x ←! r ; k" := (Py.bind r (fun x => k))
  (at level 100, r at next level, right associativity, only parsing).
Notation "r ;! k" := (Py.bind r (fun _ => k))
  (at level 100, right associativity, only parsing).

(** ** The relational layer *)

Module Orm.

(** A row maps attribute names to values; a foreign key holds the primary
    key of the row it points to.  A table maps primary keys to rows. *)
Abbreviation row := (gmap string value).
Abbreviation table := (gmap Z (gmap string value)).
Abbreviation db := (gmap string (gmap Z (gmap string value))).

Definition rows (d : db) (model : string) : table := default ∅ (d !! model).

(** *** [0002_initial.py] *)

Inductive on_delete_t := CASCADE | DO_NOTHING.

#[global] Instance on_delete_eq_dec : EqDecision on_delete_t.
Proof. solve_decision. Defined.

(** [migrations.AddField(model_name, name, field=models.ForeignKey(to, on_delete))]
    and [migrations.AddConstraint(model_name, models.UniqueConstraint(fields, name))]. *)
Inductive operation :=
| AddField (model_name name to : string) (on_delete : on_delete_t)
| AddConstraint (model_name : string) (fields : list string) (name : string).

(** [settings.AUTH_USER_MODEL]: the [User] model of the [users] application. *)
Definition AUTH_USER_MODEL : string := "users.user".

Definition operations : list operation :=
  [ AddField "review" "author" AUTH_USER_MODEL CASCADE;
    AddField "review" "title" "reviews.title" CASCADE;
    AddField "raiting" "author" AUTH_USER_MODEL CASCADE;
    AddField "raiting" "title" "reviews.title" CASCADE;
    AddField "comment" "author" AUTH_USER_MODEL CASCADE;
    AddField "comment" "review" "reviews.review" CASCADE;
    AddConstraint "review" ["title"; "author"] "unique review" ].

(** The migration belongs to the [reviews] application. *)
Definition label (model_name : string) : string := "reviews." ++ model_name.

Definition Title : string := label "title".
Definition Review : string := label "review".
Definition Comment : string := label "comment".
Definition Raiting : string := label "raiting".
Definition User : string := AUTH_USER_MODEL.

(** Foreign keys of a model, in declaration order: (field, target). *)
Definition forward_relations (model : string) : list (string * string) :=
  omap (fun op => match op with
                  | AddField m f to _ =>
                      if decide (label m = model) then Some (f, to) else None
                  | _ => None
                  end) operations.

(** Foreign keys pointing at a model whose deletion cascades: (model, field). *)
Definition cascading_referrers (target : string) : list (string * string) :=
  omap (fun op => match op with
                  | AddField m f to CASCADE =>
                      if decide (to = target) then Some (label m, f) else None
                  | _ => None
                  end) operations.

Definition unique_constraints (model : string) : list (list string * string) :=
  omap (fun op => match op with
                  | AddConstraint m fs n =>
                      if decide (label m = model) then Some (fs, n) else None
                  | _ => None
                  end) operations.

(** *** Queries *)

(** [get_object_or_404(Model, pk=pk)] *)
Definition get_object_or_404 (d : db) (model : string) (pk : option Z)
  : result (Z * row) :=
  match pk with
  | None => Raise Http404
  | Some k => match rows d model !! k with
              | Some r => Ok (k, r)
              | None => Raise Http404
              end
  end.

(** A row satisfies the keyword conditions of a [filter(...)] call. *)
Definition matches (conds : list (string * value)) (r : row) : Prop :=
  Forall (fun c => r !! c.1 = Some c.2) conds.

#[global] Instance matches_dec conds r : Decision (matches conds r).
Proof. unfold matches. apply _. Defined.

(** [Model.objects.filter(k1=v1, ...)] *)
Definition objects_filter (d : db) (model : string)
    (conds : list (string * value)) : table :=
  filter (fun kr => matches conds kr.2) (rows d model).

(** [queryset.exists()] *)
Definition exists_ (t : table) : bool := bool_decide (t ≠ ∅).

(** *** Insertion *)

(** Two rows agree on every field of a uniqueness constraint. *)
Definition agree (fields : list string) (r1 r2 : row) : Prop :=
  Forall (fun f => r1 !! f = r2 !! f) fields.

#[global] Instance agree_dec fields r1 r2 : Decision (agree fields r1 r2).
Proof. unfold agree. apply _. Defined.

Definition clashes (t : table) (fields : list string) (r : row) : bool :=
  bool_decide (filter (fun kr => agree fields kr.2 r) t ≠ ∅).

Definition violated (t : table) (r : row) (cs : list (list string * string))
  : option string :=
  snd <$> List.find (fun c => clashes t c.1 r) cs.

(** [Model.objects.create(k1=v1, ...)]: the database refuses a row that breaks
    a declared uniqueness constraint, and otherwise stores it under a new
    primary key. *)
Definition objects_create (d : db) (model : string) (attrs : row)
  : result (db * Z) :=
  match violated (rows d model) attrs (unique_constraints model) with
  | Some c => Raise (IntegrityError c)
  | None =>
      let pk := fresh (dom (rows d model)) in
      Ok (<[model := <[pk := attrs]> (rows d model)]> d, pk)
  end.

(** [instance.save()] on a stored instance: the row is replaced, unless the
    new values clash with another row under a uniqueness constraint. *)
Definition save (d : db) (model : string) (pk : Z) (r : row) : result db :=
  match violated (delete pk (rows d model)) r (unique_constraints model) with
  | Some c => Raise (IntegrityError c)
  | None => Ok (<[model := <[pk := r]> (rows d model)]> d)
  end.

(** *** Deletion *)

(** The foreign key [f] of row [r] points into [ids]. *)
Definition points_into (f : string) (ids : gset Z) (r : row) : bool :=
  match r !! f with
  | Some (PInt k) => bool_decide (k ∈ ids)
  | _ => false
  end.

(** Primary keys of the rows of [model] whose foreign key [f] points into [ids]. *)
Definition pointing (d : db) (model f : string) (ids : gset Z) : gset Z :=
  dom (filter (fun kr => points_into f ids kr.2 = true) (rows d model)).

(** The deletion collector: the rows to delete, and then, through every
    cascading foreign key pointing at their model, the rows that refer to
    them, and so on.  The schema has no cycle, so the recursion depth is
    bounded by the number of models. *)
Fixpoint collect (fuel : nat) (d : db) (model : string) (ids : gset Z)
  : list (string * gset Z) :=
  (model, ids) ::
  match fuel with
  | O => []
  | S n =>
      flat_map (fun mf => collect n d mf.1 (pointing d mf.1 mf.2 ids))
               (cascading_referrers model)
  end.

Definition remove_rows (mi : string * gset Z) (d : db) : db :=
  <[mi.1 := filter (fun kr => kr.1 ∉ mi.2) (rows d mi.1)]> d.

Definition models : list string := [User; Title; Review; Raiting; Comment].

(** [instance.delete()] *)
Definition delete_instance (d : db) (model : string) (pk : Z) : db :=
  foldr remove_rows d (collect (length models) d model {[pk]}).

End Orm.
Import Orm.

(** ** What [serializers.py] imports from the rest of the project *)

Module Users.

(** An entry of [CHOICE_ROLES]: a tuple of strings (as in Django's
    [choices]) or a plain string. *)
Inductive choice :=
| ChoiceTuple (items : list string)
| ChoiceStr (s : string).

(** [sub in s] on strings: [sub] occurs in [s]. *)
Fixpoint occurs (sub s : string) : bool :=
  String.prefix sub s ||
  match s with
  | EmptyString => false
  | String _ s' => occurs sub s'
  end.

(** [x in c] *)
Definition contains (x : string) (c : choice) : bool :=
  match c with
  | ChoiceTuple items => bool_decide (x ∈ items)
  | ChoiceStr s => occurs x s
  end.

(** [users.models], [users.utils] and [settings] lie outside the two files
    embedded here: what [serializers.py] imports from them is a parameter.
    A validator either returns or raises. *)
Class Imports := {
  CHOICE_ROLES : list choice;
  username_validate : string → result unit;
  email_validate : string → result unit;
  get_unique_confirmation_code : value;
  MAX_CODE_LENGTH : nat;
}.

End Users.
Import Users.

(** ** The part of [rest_framework.serializers] the classes rely on *)

Module Drf.

Inductive field :=
| CharField (max_length : nat) (read_only : bool) (default : option string)
| EmailField (max_length : nat)
| SlugRelatedField (slug_field : string) (read_only : bool)
| PrimaryKeyRelatedField (to : string)
| ModelField (read_only : bool).

Definition read_only (f : field) : bool :=
  match f with
  | CharField _ ro _ => ro
  | EmailField _ => false
  | SlugRelatedField _ ro => ro
  | PrimaryKeyRelatedField _ => false
  | ModelField ro => ro
  end.

(** [Meta.fields] *)
Inductive meta_fields := ALL_FIELDS | Fields (names : list string).

Record serializer := {
  model : string;
  declared : list (string * field);
  fields : meta_fields;
}.

(** Modelled from the spec: the columns of the models, declared by
    [0001_initial.py] and [users/models.py], which lie outside the two files
    embedded here; the primary key [id] and the foreign keys added by
    [0002_initial.py] come on top.  Section 3 of the specification lists
    Review (text, score, title, author), Comment (text, review, author) and
    User (username, email, role, confirmation_code, bio); section 6 adds
    [pub_date] to the shape of a Review, and the field lists of the user
    serializers add [first_name] and [last_name]. *)
Definition columns (m : string) : list string :=
  if decide (m = Review) then ["text"; "score"; "pub_date"]
  else if decide (m = Comment) then ["text"]
  else if decide (m = Title) then ["name"; "year"]
  else if decide (m = User) then
    ["username"; "email"; "first_name"; "last_name"; "bio"; "role";
     "confirmation_code"]
  else [].

(** [ModelSerializer.build_field]: a foreign key becomes a primary-key
    relation, a column a plain field; the automatic primary key is
    read-only. *)
Definition build_field (m name : string) : field :=
  match List.find (fun ft => String.eqb ft.1 name) (forward_relations m) with
  | Some ft => PrimaryKeyRelatedField ft.2
  | None => ModelField (String.eqb name "id")
  end.

(** Keeps the first occurrence of every name, as filling an ordered
    dictionary does. *)
Fixpoint dedup (seen : list string) (l : list string) : list string :=
  match l with
  | [] => []
  | x :: l' => if bool_decide (x ∈ seen) then dedup seen l'
               else x :: dedup (x :: seen) l'
  end.

(** [ModelSerializer.get_field_names]; for ['__all__'] these are the
    primary key, the declared fields, the columns and the foreign keys. *)
Definition get_field_names (s : serializer) : list string :=
  match fields s with
  | Fields names => names
  | ALL_FIELDS =>
      dedup [] ("id" :: (fst <$> declared s) ++ columns (model s)
                     ++ (fst <$> forward_relations (model s)))
  end.

(** [ModelSerializer.get_fields]: a declared field wins over a built one. *)
Definition get_fields (s : serializer) : list (string * field) :=
  (fun name =>
     match List.find (fun nf => String.eqb nf.1 name) (declared s) with
     | Some nf => (name, nf.2)
     | None => (name, build_field (model s) name)
     end) <$> get_field_names s.

(** *** Serialization *)

(** What [getattr(instance, name)] yields on a model instance. *)
Inductive attribute :=
| AValue (v : value)
| ARelated (to : string) (pk : Z) (r : row)
| ADoesNotExist
| AttributeError.

Definition get_attribute (d : db) (m : string) (pk : Z) (r : row)
    (name : string) : attribute :=
  match List.find (fun ft => String.eqb ft.1 name) (forward_relations m) with
  | Some ft =>
      match r !! name with
      | Some (PInt k) =>
          match rows d ft.2 !! k with
          | Some r' => ARelated ft.2 k r'
          | None => ADoesNotExist
          end
      | _ => AValue PNone
      end
  | None =>
      if String.eqb name "id" || String.eqb name "pk" then AValue (PInt pk)
      else if bool_decide (name ∈ columns m) then AValue (Py.get r name)
      else AttributeError
  end.

Inductive outcome :=
| Rendered (v : value)
| SkipField
| Failed.

(** [field.get_attribute(instance)] followed by [field.to_representation]:
    a field that is not required (a read-only one is not) is skipped when
    the instance lacks the attribute. *)
Definition render (d : db) (f : field) (a : attribute) : outcome :=
  match a with
  | AttributeError => if read_only f then SkipField else Failed
  | ADoesNotExist => Failed
  | AValue PNone => Rendered PNone
  | AValue v =>
      match f with
      | CharField _ _ _ | EmailField _ => Rendered (PStr (str v))
      | ModelField _ => Rendered v
      | SlugRelatedField _ _ | PrimaryKeyRelatedField _ => Failed
      end
  | ARelated to k r' =>
      match f with
      | SlugRelatedField slug _ =>
          match get_attribute d to k r' slug with
          | AValue v => Rendered v
          | _ => Failed
          end
      | PrimaryKeyRelatedField _ => Rendered (PInt k)
      | _ => Failed
      end
  end.

(** [Serializer.to_representation(instance)]: an ordered dictionary, or
    [None] when rendering a field raises. *)
Fixpoint represent (d : db) (m : string) (pk : Z) (r : row)
    (fs : list (string * field)) : option (list (string * value)) :=
  match fs with
  | [] => Some []
  | (name, f) :: fs' =>
      match render d f (get_attribute d m pk r name) with
      | Failed => None
      | SkipField => represent d m pk r fs'
      | Rendered v => cons (name, v) <$> represent d m pk r fs'
      end
  end.

Definition to_representation (s : serializer) (d : db) (pk : Z) (r : row)
  : option (list (string * value)) :=
  represent d (model s) pk r (get_fields s).

(** *** Deserialization and saving *)

(** [Meta.validators]: [UniqueTogetherValidator(queryset, fields)]. *)
Record unique_together := {
  queryset : string;
  ut_fields : list string;
}.

(** The framework's own cleaning of one submitted value (type conversion,
    length and format validators), and whether a field built from a model
    column is required: both are the framework's and the model's business,
    and stay parameters. *)
Class Framework := {
  run_field_validation : string → field → value → string + value;
  model_required : string → string → bool;
}.

Section Validation.
Context `{Framework}.

Definition required (m name : string) (f : field) : bool :=
  match f with
  | CharField _ ro dflt => negb ro && bool_decide (dflt = None)
  | EmailField _ => true
  | SlugRelatedField _ ro => negb ro
  | PrimaryKeyRelatedField _ => true
  | ModelField ro => negb ro && model_required m name
  end.

Definition field_default (f : field) : option value :=
  match f with
  | CharField _ _ (Some s) => Some (PStr s)
  | _ => None
  end.

(** [Serializer.to_internal_value(data)]: only the writable fields are
    read from the submitted data; the result is the list of field errors
    and the ordered dictionary of validated values. *)
Fixpoint to_internal_value (partial : bool) (m : string)
    (fs : list (string * field)) (data : row)
  : list (string * string) * list (string * value) :=
  match fs with
  | [] => ([], [])
  | (name, f) :: fs' =>
      let '(errs, vals) := to_internal_value partial m fs' data in
      if read_only f then (errs, vals)
      else match data !! name with
           | Some v =>
               match run_field_validation name f v with
               | inl e => ((name, e) :: errs, vals)
               | inr v' => (errs, (name, v') :: vals)
               end
           | None =>
               if partial then (errs, vals)
               else match field_default f with
                    | Some v' => (errs, (name, v') :: vals)
                    | None =>
                        if required m name f
                        then ((name, "This field is required.") :: errs, vals)
                        else (errs, vals)
                    end
           end
  end.

(** [UniqueTogetherValidator.__call__(attrs, serializer)]: on creation
    every field of the set must be provided; on update a field that is not
    provided counts with the value of the instance, and the instance itself
    is left out of the search. *)
Definition run_unique_together (d : db) (instance : option (Z * row))
    (u : unique_together) (attrs : list (string * value)) : result unit :=
  let missing :=
    List.filter (fun f => negb (bool_decide (f ∈ attrs.*1))) (ut_fields u) in
  match instance, missing with
  | None, _ :: _ =>
      Raise (ValidationErrors ((fun f => (f, "This field is required.")) <$> missing))
  | _, _ =>
      let value_of f :=
        match List.find (fun kv => String.eqb kv.1 f) attrs, instance with
        | Some kv, _ => kv.2
        | None, Some (_, r) => Py.get r f
        | None, None => PNone
        end in
      let filter_kwargs := (fun f => (f, value_of f)) <$> ut_fields u in
      let found := objects_filter d (queryset u) filter_kwargs in
      let others :=
        match instance with
        | Some (pk, _) => delete pk found
        | None => found
        end in
      let checked_values := snd <$> filter_kwargs in
      if negb (bool_decide (PNone ∈ checked_values)) && exists_ others
      then Raise (ValidationError ("The fields " ++ String.concat ", " (ut_fields u)
                                   ++ " must make a unique set."))
      else Ok ()
  end.

Fixpoint run_validators (d : db) (instance : option (Z * row))
    (us : list unique_together) (attrs : list (string * value)) : result unit :=
  match us with
  | [] => Ok ()
  | u :: us' =>
      run_unique_together d instance u attrs ;!
      run_validators d instance us' attrs
  end.

(** [Serializer.run_validation(data)]: the fields, then the validators of
    [Meta], then the [validate] method of the class. *)
Definition run_validation (s : serializer) (us : list unique_together)
    (validate : row → result row)
    (partial : bool) (d : db) (instance : option (Z * row)) (data : row)
  : result row :=
  let '(errs, vals) := to_internal_value partial (model s) (get_fields s) data in
  match errs with
  | _ :: _ => Raise (ValidationErrors errs)
  | [] =>
      run_validators d instance us vals ;!
      validate (list_to_map vals)
  end.

(** [ModelSerializer.update(instance, validated_data)]: every validated
    value is set on the instance, which is then saved. *)
Definition update (d : db) (m : string) (pk : Z) (r : row)
    (validated_data : row) : result db :=
  Orm.save d m pk (validated_data ∪ r).

(** [serializer = S(instance, data=data, partial=partial)], then
    [serializer.is_valid(raise_exception=True)] and [serializer.save()]. *)
Definition save_update (s : serializer) (us : list unique_together)
    (validate : row → result row)
    (partial : bool) (d : db) (pk : Z) (data : row) : result db :=
  instance ←! get_object_or_404 d (model s) (Some pk);
  validated_data ←! run_validation s us validate partial d (Some instance) data;
  update d (model s) pk instance.2 validated_data.

End Validation.

End Drf.
Import Drf.

(** ** [serializers.py] *)

(** The request and the view a serializer finds in [self.context]: the HTTP
    method, the primary key of the authenticated user, and the keyword
    arguments the router extracted from the URL. *)
Record request := {
  method : string;
  user : Z;
}.

Record context := {
  ctx_request : request;
  view_kwargs : gmap string Z;
}.

Module ReviewSerializer.

Definition Meta : serializer := {|
  model := Review;
  declared := [("author", SlugRelatedField "username" true);
               ("title", SlugRelatedField "name" true)];
  fields := ALL_FIELDS;
|}.

Definition validate (d : db) (ctx : context) (data : row) : result row :=
  let request := ctx_request ctx in
  let author := user request in
  let title_id := view_kwargs ctx !! "title_id" in
  title ←! get_object_or_404 d Title title_id;
  if String.eqb (method request) "POST" then
    if exists_ (objects_filter d Review
                  [("title", PInt title.1); ("author", PInt author)])
    then Raise (ValidationError "Нельзя добавить больше одного отзыва")
    else Ok data
  else Ok data.

End ReviewSerializer.

Module CommentSerializer.

Definition Meta : serializer := {|
  model := Comment;
  declared := [("author", SlugRelatedField "username" true);
               ("reviews", SlugRelatedField "text" true)];
  fields := ALL_FIELDS;
|}.

End CommentSerializer.

Module UserSerializer.
Section Methods.
Context `{Imports}.

Definition Meta : serializer := {|
  model := User;
  declared := [("email", EmailField 254);
               ("username", CharField 150 false None)];
  fields := Fields ["email"; "username"; "first_name"; "last_name"; "bio";
                    "role"];
|}.

(** [Meta.validators] *)
Definition validators : list unique_together :=
  [ {| queryset := User; ut_fields := ["username"; "email"] |} ].

Definition create (d : db) (validated_data : row) : result (db * Z) :=
  let confirm_code := str get_unique_confirmation_code in
  objects_create d User
    (<["confirmation_code" := PStr confirm_code]> validated_data).

Definition validate (data : row) : result row :=
  username_validate (str (Py.get data "username")) ;!
  email_validate (str (Py.get data "email")) ;!
  Ok data.

End Methods.
End UserSerializer.

Module MeSerializer.
Section Methods.
Context `{Imports}.

Definition Meta : serializer := {|
  model := User;
  declared := [("email", EmailField 254);
               ("username", CharField 150 false None);
               ("role", CharField 15 true None)];
  fields := Fields ["email"; "username"; "first_name"; "last_name"; "bio";
                    "role"];
|}.

(** [Meta.validators] *)
Definition validators : list unique_together :=
  [ {| queryset := User; ut_fields := ["username"; "email"] |} ].

Definition validate (data : row) : result row :=
  username_validate (str (Py.get data "username")) ;!
  email_validate (str (Py.get data "email")) ;!
  Ok data.

(** Editing a profile: [MeSerializer(instance, data=data, partial=partial)],
    then [is_valid(raise_exception=True)] and [save()]. *)
Definition save `{Framework} (partial : bool) (d : db) (pk : Z) (data : row)
  : result db :=
  save_update Meta validators validate partial d pk data.

End Methods.
End MeSerializer.

Module AdminOrSuperAdminUserSerializer.
Section Methods.
Context `{Imports}.

Definition Meta : serializer := {|
  model := User;
  declared := [("email", EmailField 254);
               ("username", CharField 150 false None);
               ("role", CharField 15 false (Some "user"))];
  fields := Fields ["email"; "username"; "first_name"; "last_name"; "bio";
                    "role"];
|}.

(** [Meta.validators] *)
Definition validators : list unique_together :=
  [ {| queryset := User; ut_fields := ["username"; "email"] |} ].

Definition create (d : db) (validated_data : row) : result (db * Z) :=
  let confirm_code := str get_unique_confirmation_code in
  objects_create d User
    (<["confirmation_code" := PStr confirm_code]> validated_data).

Definition validate (data : row) : result row :=
  username_validate (str (Py.get data "username")) ;!
  email_validate (str (Py.get data "email")) ;!
  let role := str (Py.get data "role") in
  if existsb (fun i => contains role i) CHOICE_ROLES
  then Raise (ValidationError "Задана не существующая роль")
  else Ok data.

End Methods.
End AdminOrSuperAdminUserSerializer.

Module SignUpSerializer.
Section Methods.
Context `{Imports}.

Definition Meta : serializer := {|
  model := User;
  declared := [("username", CharField 150 false None);
               ("email", EmailField 254)];
  fields := Fields ["username"; "email"];
|}.

Definition validate (data : row) : result row :=
  username_validate (str (Py.get data "username")) ;!
  email_validate (str (Py.get data "username")) ;!
  Ok data.

End Methods.
End SignUpSerializer.

Module TokenSerializer.
Section Methods.
Context `{Imports}.

Definition Meta : serializer := {|
  model := User;
  declared := [("username", CharField 150 false None);
               ("confirmation_code", CharField MAX_CODE_LENGTH false None)];
  fields := Fields ["username"; "confirmation_code"];
|}.

Definition validate (data : row) : result row :=
  let username := str (Py.get data "username") in
  let confirmation_code := Py.get data "confirmation_code" in
  if decide (confirmation_code = PNone) then
    Raise (ValidationError "Код подтверждения не может быть пустым")
  else
    username_validate username ;!
    Ok data.

End Methods.
End TokenSerializer.

(** ** Invariants and sample data *)

(** At most one Review per (title, author) pair. *)
Definition one_review_per_pair (d : db) : Prop :=
  ∀ k1 k2 r1 r2,
    rows d Review !! k1 = Some r1 → rows d Review !! k2 = Some r2 →
    r1 !! "title" = r2 !! "title" → r1 !! "author" = r2 !! "author" →
    k1 = k2.

Module Sample.

(** Modelled from the spec: [users/models.py], [users/utils.py] and the
    settings lie outside the two files embedded here.  The roles are those of
    section 3, "role in {user, moderator, admin}", written as Django
    choices; the two validators are the "string-format validators for
    username/email" of section 4, of which nothing more is known: these
    stand-ins refuse an empty username and an email without [@], and serve
    only to run the serializers on concrete data. *)
Definition imports : Imports := {|
  CHOICE_ROLES := [ChoiceTuple ["user"; "user"];
                   ChoiceTuple ["moderator"; "moderator"];
                   ChoiceTuple ["admin"; "admin"]];
  username_validate s :=
    if String.eqb s "" then Raise (ValidationError "invalid username")
    else Ok ();
  email_validate s :=
    if occurs "@" s then Ok ()
    else Raise (ValidationError "invalid email");
  get_unique_confirmation_code :=
    PFunc "get_unique_confirmation_code" 0x7f3a5c1d2e50%N;
  MAX_CODE_LENGTH := 150;
|}.

(** A stand-in for the framework's cleaning of single values: strings are
    kept, anything else is refused; no model column is required. *)
Definition framework : Framework := {|
  run_field_validation _ _ v :=
    match v with
    | PStr s => inr (PStr s)
    | _ => inl "Not a valid string."
    end;
  model_required _ _ := false;
|}.

Definition alice : row :=
  {[ "username" := PStr "alice"; "email" := PStr "alice@example.com";
     "first_name" := PStr ""; "last_name" := PStr ""; "bio" := PStr "";
     "role" := PStr "user"; "confirmation_code" := PStr "c0de" ]}.

Definition solaris : row :=
  {[ "name" := PStr "Solaris"; "year" := PInt 1972 ]}.

Definition praise : row :=
  {[ "text" := PStr "A masterpiece"; "score" := PInt 10;
     "pub_date" := PStr "2023-02-19T13:06:00Z";
     "title" := PInt 1; "author" := PInt 7 ]}.

Definition reply : row :=
  {[ "text" := PStr "Agreed"; "review" := PInt 3; "author" := PInt 7 ]}.

(** Two sign-ups to come. *)
Definition bob : row :=
  {[ "username" := PStr "bob"; "email" := PStr "bob@example.com" ]}.

Definition carol : row :=
  {[ "username" := PStr "carol"; "email" := PStr "carol@example.com";
     "role" := PStr "admin" ]}.

(** An edit of a profile that also asks for the role of an administrator. *)
Definition edit : row :=
  {[ "email" := PStr "alicia@example.org"; "username" := PStr "alicia";
     "first_name" := PStr "Alicia"; "last_name" := PStr "Liddell";
     "bio" := PStr "Reader"; "role" := PStr "admin" ]}.

(** One user (7), one title (1), her review of it (3) and a comment (5). *)
Definition store : db :=
  {[ User := {[ 7 := alice ]};
     Title := {[ 1 := solaris ]};
     Review := {[ 3 := praise ]};
     Comment := {[ 5 := reply ]} ]}.

(** The user 7 addresses the reviews of title 1. *)
Definition ctx (method : string) : context :=
  {| ctx_request := {| method := method; user := 7 |};
     view_kwargs := {[ "title_id" := 1 ]} |}.

(** A stand-in for the cleaning of single values that, like the fields of
    the framework unless told otherwise, refuses [None] and the blank
    string. *)
Definition strict_framework : Framework := {|
  run_field_validation _ _ v :=
    match v with
    | PStr "" => inl "This field may not be blank."
    | PStr s => inr (PStr s)
    | PNone => inl "This field may not be null."
    | _ => inl "Not a valid string."
    end;
  model_required _ _ := false;
|}.

Definition dave : row :=
  {[ "username" := PStr "dave"; "email" := PStr "dave@example.com";
     "first_name" := PStr ""; "last_name" := PStr ""; "bio" := PStr "";
     "role" := PStr "user"; "confirmation_code" := PStr "c0de" ]}.

(** The same store with a second user (8), who has reviewed nothing. *)
Definition club : db := <[ User := {[ 7 := alice; 8 := dave ]} ]> store.

(** The user 8 posts a review of title 1. *)
Definition post_by_dave : context :=
  {| ctx_request := {| method := "POST"; user := 8 |};
     view_kwargs := {[ "title_id" := 1 ]} |}.

Definition pan : row :=
  {[ "title" := PInt 1; "author" := PInt 8; "text" := PStr "Slow";
     "score" := PInt 4; "pub_date" := PStr "2023-02-20T09:00:00Z" ]}.

End Sample.

(** ** Deletion, integrity and the remaining entry points *)

(** The rows that the deletion of the rows [ids] of [model] takes along:
    these rows, and every row with a cascading foreign key to a row taken
    along. *)
Inductive doomed (d : db) (model : string) (ids : gset Z)
  : string → Z → Prop :=
| doomed_start k :
    k ∈ ids → doomed d model ids model k
| doomed_referrer m1 k1 m2 f k2 r :
    doomed d model ids m1 k1 →
    (m2, f) ∈ cascading_referrers m1 →
    rows d m2 !! k2 = Some r →
    r !! f = Some (PInt k1) →
    doomed d model ids m2 k2.

(** Every foreign key added by the migration that holds a primary key
    points to a stored row. *)
Definition referential_integrity (d : db) : Prop :=
  ∀ m f to od k r k',
    AddField m f to od ∈ operations →
    rows d (label m) !! k = Some r →
    r !! f = Some (PInt k') →
    is_Some (rows d to !! k').

(** Editing a review: [ReviewSerializer(instance, data=data,
    partial=partial, context=ctx)], then [is_valid(raise_exception=True)]
    and [save()].  The class declares no [Meta.validators]. *)
Definition review_save_update `{Framework} (partial : bool) (d : db)
    (ctx : context) (pk : Z) (data : row) : result db :=
  save_update ReviewSerializer.Meta [] (ReviewSerializer.validate d ctx)
    partial d pk data.

(** [AdminOrSuperAdminUserSerializer(data=data)] with
    [is_valid(raise_exception=True)]: the validated data of a new user. *)
Definition admin_run_validation `{Imports, Framework} (d : db) (data : row)
  : result row :=
  run_validation AdminOrSuperAdminUserSerializer.Meta
    AdminOrSuperAdminUserSerializer.validators
    AdminOrSuperAdminUserSerializer.validate false d None data.

(** [TokenSerializer(data=data)] with [is_valid(raise_exception=True)]. *)
Definition token_run_validation `{Imports, Framework} (d : db) (data : row)
  : result row :=
  run_validation TokenSerializer.Meta [] TokenSerializer.validate
    false d None data.

(** How [CharField] and [EmailField] show a stored value. *)
Definition shown (v : value) : value :=
  match v with
  | PNone => PNone
  | _ => PStr (str v)
  end.

(** * Properties *)

(** ** Tables *)

Section TableFacts.
Implicit Types (d : db) (m : string) (k : Z) (r : row) (ids : gset Z).

Lemma rows_insert_eq d m (t : table) : rows (<[m := t]> d) m = t.
Proof. unfold rows. by rewrite lookup_insert_eq. Qed.

Lemma rows_insert_ne d m m' (t : table) :
  m ≠ m' → rows (<[m := t]> d) m' = rows d m'.
Proof. intros Hne. unfold rows. by rewrite lookup_insert_ne. Qed.

Lemma exists_true (t : table) k r : t !! k = Some r → exists_ t = true.
Proof.
  intros Hk. apply bool_decide_eq_true. intros ->.
  by rewrite lookup_empty in Hk.
Qed.

Lemma objects_filter_lookup d m conds k r :
  objects_filter d m conds !! k = Some r ↔
  rows d m !! k = Some r ∧ matches conds r.
Proof. unfold objects_filter. by rewrite map_lookup_filter_Some. Qed.

Lemma elem_of_pointing d m f ids k :
  k ∈ pointing d m f ids ↔
  ∃ r k', rows d m !! k = Some r ∧ r !! f = Some (PInt k') ∧ k' ∈ ids.
Proof.
  unfold pointing. rewrite elem_of_dom. unfold is_Some.
  setoid_rewrite map_lookup_filter_Some. unfold points_into. simpl. split.
  - intros (r & Hr & Hp). exists r.
    destruct (r !! f) as [[| |k'|]|]; try done.
    apply bool_decide_eq_true in Hp. eauto.
  - intros (r & k' & Hr & Hf & Hk'). exists r. split; [done|].
    rewrite Hf. by apply bool_decide_eq_true.
Qed.

End TableFacts.

(** ** Deletion along the foreign keys *)

Section Deletion.
Implicit Types (d : db) (m : string) (k : Z) (r : row) (ids : gset Z).
Implicit Types (c : list (string * gset Z)).

Lemma rows_remove_rows d m' ids m k r :
  rows (remove_rows (m', ids) d) m !! k = Some r ↔
  rows d m !! k = Some r ∧ ¬ (m = m' ∧ k ∈ ids).
Proof.
  unfold remove_rows. simpl. destruct (decide (m' = m)) as [->|Hne].
  - rewrite rows_insert_eq, map_lookup_filter_Some. simpl. naive_solver.
  - rewrite rows_insert_ne by done. naive_solver.
Qed.

(** A row survives the removal of the collected rows exactly when it was
    not collected. *)
Lemma rows_foldr_remove_rows d c m k r :
  rows (foldr remove_rows d c) m !! k = Some r ↔
  rows d m !! k = Some r ∧ ∀ ids, (m, ids) ∈ c → k ∉ ids.
Proof.
  induction c as [|[m' ids'] c IH]; simpl.
  - split; [|naive_solver]. intros Hk. split; [done|].
    intros ids Hin. by apply elem_of_nil in Hin.
  - rewrite rows_remove_rows, IH. split.
    + intros [[Hk Hc] Hn]. split; [done|].
      intros ids [Heq|Hin]%elem_of_cons; [|by apply Hc].
      injection Heq as -> ->. naive_solver.
    + intros [Hk Hc]. split; [split; [done|]|].
      * intros ids Hin. apply Hc. by right.
      * intros [-> Hin]. by apply (Hc ids'); [left|].
Qed.

Lemma cascading_referrers_Title :
  cascading_referrers Title = [(Review, "title"); (Raiting, "title")].
Proof. reflexivity. Qed.

Lemma cascading_referrers_Review :
  cascading_referrers Review = [(Comment, "review")].
Proof. reflexivity. Qed.

Lemma cascading_referrers_Comment : cascading_referrers Comment = [].
Proof. reflexivity. Qed.

Lemma cascading_referrers_Raiting : cascading_referrers Raiting = [].
Proof. reflexivity. Qed.

(** What deleting titles collects: the titles, their reviews, the comments
    on these reviews, and their ratings. *)
Lemma collect_Title n d ids :
  collect (S (S n)) d Title ids =
  [ (Title, ids);
    (Review, pointing d Review "title" ids);
    (Comment, pointing d Comment "review" (pointing d Review "title" ids));
    (Raiting, pointing d Raiting "title" ids) ].
Proof.
  cbn [collect]. rewrite cascading_referrers_Title. cbn [flat_map fst snd].
  rewrite cascading_referrers_Review, cascading_referrers_Raiting.
  cbn [flat_map fst snd app]. destruct n; cbn [collect];
    rewrite ?cascading_referrers_Comment; reflexivity.
Qed.

(** What deleting reviews collects: the reviews and their comments. *)
Lemma collect_Review n d ids :
  collect (S n) d Review ids =
  [ (Review, ids); (Comment, pointing d Comment "review" ids) ].
Proof.
  cbn [collect]. rewrite cascading_referrers_Review. cbn [flat_map fst snd app].
  destruct n; cbn [collect]; rewrite ?cascading_referrers_Comment; reflexivity.
Qed.

Lemma cascading_referrers_User :
  cascading_referrers User =
  [(Review, "author"); (Raiting, "author"); (Comment, "author")].
Proof. reflexivity. Qed.

(** Only users, titles and reviews are referred to. *)
Lemma cascading_referrers_other m :
  m ≠ User → m ≠ Title → m ≠ Review → cascading_referrers m = [].
Proof.
  intros HU HT HR. unfold cascading_referrers, operations.
  cbn [omap list_omap].
  change AUTH_USER_MODEL with User. change "reviews.title" with Title.
  change "reviews.review" with Review.
  by rewrite !decide_False by done.
Qed.

Lemma collect_leaf n d m ids :
  cascading_referrers m = [] → collect n d m ids = [(m, ids)].
Proof. intros Hm. destruct n; cbn [collect]; [done|]. by rewrite Hm. Qed.

(** What deleting users collects. *)
Lemma collect_User n d ids :
  collect (S (S n)) d User ids =
  [ (User, ids);
    (Review, pointing d Review "author" ids);
    (Comment, pointing d Comment "review" (pointing d Review "author" ids));
    (Raiting, pointing d Raiting "author" ids);
    (Comment, pointing d Comment "author" ids) ].
Proof.
  cbn [collect]. rewrite cascading_referrers_User. cbn [flat_map fst snd].
  rewrite cascading_referrers_Review, cascading_referrers_Raiting,
    cascading_referrers_Comment.
  cbn [flat_map fst snd app].
  by rewrite !collect_leaf by apply cascading_referrers_Comment.
Qed.

(** No chain of foreign keys is longer than two: the collector needs no
    more fuel than that, and [delete_instance] gives it more. *)
Lemma collect_enough n d m ids :
  collect (S (S n)) d m ids = collect 2 d m ids.
Proof.
  destruct (decide (m = User)) as [->|HU]; [by rewrite !collect_User|].
  destruct (decide (m = Title)) as [->|HT]; [by rewrite !collect_Title|].
  destruct (decide (m = Review)) as [->|HR]; [by rewrite !collect_Review|].
  by rewrite !collect_leaf by by apply cascading_referrers_other.
Qed.

End Deletion.

(** C7.  Deleting a Title deletes the Title and every Review whose title
    it is, and no Comment that remains refers to a Review that was deleted
    with it; deleting a Review deletes the Review and every Comment attached
    to it.  Both follow from the [CASCADE] foreign keys [review.title] and
    [comment.review] of the migration. *)
Theorem delete_cascades (d : db) :
  (∀ t, let d' := delete_instance d Title t in
     rows d' Title !! t = None ∧
     (∀ k r, rows d' Review !! k = Some r → r !! "title" ≠ Some (PInt t)) ∧
     (∀ k c kr, rows d' Comment !! k = Some c →
                c !! "review" = Some (PInt kr) →
                rows d' Review !! kr = rows d Review !! kr)) ∧
  (∀ rv, let d' := delete_instance d Review rv in
     rows d' Review !! rv = None ∧
     (∀ k c, rows d' Comment !! k = Some c → c !! "review" ≠ Some (PInt rv))).
Proof.
  split.
  - intros t d'. subst d'. unfold delete_instance.
    change (length models) with 5%nat. rewrite collect_Title.
    set (c := [_; _; _; _]).
    assert (HT : (Title, ({[t]} : gset Z)) ∈ c) by (subst c; set_solver).
    assert (HR : (Review, pointing d Review "title" {[t]}) ∈ c)
      by (subst c; set_solver).
    assert (HC : (Comment, pointing d Comment "review"
                             (pointing d Review "title" {[t]})) ∈ c)
      by (subst c; set_solver).
    assert (Honly : ∀ ids, (Review, ids) ∈ c →
                           ids = pointing d Review "title" {[t]}).
    { subst c. intros ids Hin. repeat (apply elem_of_cons in Hin as [Hin|Hin]);
        try (by apply elem_of_nil in Hin); by inversion Hin. }
    split; [|split].
    + apply eq_None_not_Some. intros [r Hr].
      apply rows_foldr_remove_rows in Hr as [_ Hr].
      apply (Hr _ HT). set_solver.
    + intros k r Hr Ht. apply rows_foldr_remove_rows in Hr as [Hk Hr].
      apply (Hr _ HR). apply elem_of_pointing. exists r, t. set_solver.
    + intros k c' kr Hc Hkr. apply rows_foldr_remove_rows in Hc as [Hk Hc].
      specialize (Hc _ HC). rewrite elem_of_pointing in Hc.
      destruct (rows d Review !! kr) as [r|] eqn:Hd.
      * apply rows_foldr_remove_rows. split; [done|].
        intros ids ->%Honly Hin. apply Hc. eauto.
      * apply eq_None_not_Some. intros [r Hr].
        apply rows_foldr_remove_rows in Hr as [Hr _]. congruence.
  - intros rv d'. subst d'. unfold delete_instance.
    change (length models) with 5%nat. rewrite collect_Review.
    set (c := [_; _]).
    assert (HR : (Review, ({[rv]} : gset Z)) ∈ c) by (subst c; set_solver).
    assert (HC : (Comment, pointing d Comment "review" {[rv]}) ∈ c)
      by (subst c; set_solver).
    split.
    + apply eq_None_not_Some. intros [r Hr].
      apply rows_foldr_remove_rows in Hr as [_ Hr].
      apply (Hr _ HR). set_solver.
    + intros k c' Hc Hrv. apply rows_foldr_remove_rows in Hc as [Hk Hc].
      apply (Hc _ HC). apply elem_of_pointing. exists c', rv. set_solver.
Qed.

(** ** One review per title and author *)

Section Reviews.
Implicit Types (d : db) (k t u : Z) (r attrs : row).

Lemma unique_constraints_Review :
  unique_constraints Review = [(["title"; "author"], "unique review")].
Proof. reflexivity. Qed.

Lemma agree_title_author r1 r2 :
  agree ["title"; "author"] r1 r2 ↔
  r1 !! "title" = r2 !! "title" ∧ r1 !! "author" = r2 !! "author".
Proof.
  unfold agree. rewrite !Forall_cons, Forall_nil. naive_solver.
Qed.

Lemma clashes_true (tb : table) fs k r attrs :
  tb !! k = Some r → agree fs r attrs → clashes tb fs attrs = true.
Proof.
  intros Hk Ha. apply bool_decide_eq_true. intros He.
  by apply (map_filter_empty_not_lookup _ _ k r) in He.
Qed.

Lemma clashes_false (tb : table) fs k r attrs :
  clashes tb fs attrs = false → tb !! k = Some r → ¬ agree fs r attrs.
Proof.
  intros Hc Hk Ha. by rewrite (clashes_true tb fs k r attrs) in Hc.
Qed.

(** The database refuses a second review of a title by an author. *)
Lemma objects_create_duplicate d k r attrs :
  rows d Review !! k = Some r →
  r !! "title" = attrs !! "title" → r !! "author" = attrs !! "author" →
  objects_create d Review attrs = Raise (IntegrityError "unique review").
Proof.
  intros Hk Ht Ha. unfold objects_create.
  rewrite unique_constraints_Review. unfold violated. cbn [List.find fst].
  rewrite (clashes_true _ _ k r); [done..|].
  by apply agree_title_author.
Qed.

(** Insertion keeps the pairs distinct. *)
Lemma objects_create_one_review_per_pair d attrs d' pk :
  one_review_per_pair d →
  objects_create d Review attrs = Ok (d', pk) →
  one_review_per_pair d'.
Proof.
  intros Hinv. unfold objects_create.
  rewrite unique_constraints_Review. unfold violated. cbn [List.find fst].
  destruct (clashes _ _ _) eqn:Hc; [done|]. cbn. intros [= <- <-].
  intros k1 k2 r1 r2. rewrite !rows_insert_eq.
  set (pk := fresh _).
  destruct (decide (k1 = pk)) as [->|H1], (decide (k2 = pk)) as [->|H2];
    rewrite ?lookup_insert_eq, ?lookup_insert_ne by done; [done|..].
  - intros [= <-] H2' Ht Ha. exfalso.
    apply (clashes_false _ _ _ _ _ Hc H2'). by apply agree_title_author.
  - intros H1' [= <-] Ht Ha. exfalso.
    apply (clashes_false _ _ _ _ _ Hc H1'). by apply agree_title_author.
  - apply Hinv.
Qed.

Lemma validate_title_found d ctx data t trow :
  view_kwargs ctx !! "title_id" = Some t →
  rows d Title !! t = Some trow →
  ReviewSerializer.validate d ctx data =
  if String.eqb (method (ctx_request ctx)) "POST" then
    if exists_ (objects_filter d Review
                  [("title", PInt t); ("author", PInt (user (ctx_request ctx)))])
    then Raise (ValidationError "Нельзя добавить больше одного отзыва")
    else Ok data
  else Ok data.
Proof.
  intros Hkw Ht. unfold ReviewSerializer.validate, get_object_or_404.
  by rewrite Hkw, Ht.
Qed.

End Reviews.

(** C1.  When a review of a title by an author is stored, [validate]
    rejects the author's POST of another review of that title with a
    validation error; the database refuses a second row with the same title
    and author under the constraint [unique review]; and every insertion the
    database accepts keeps at most one Review per (title, author) pair. *)
Theorem duplicate_review_rejected (d : db) (ctx : context) (data : row)
    (t : Z) (trow : row) (k : Z) (r : row) :
  method (ctx_request ctx) = "POST" →
  view_kwargs ctx !! "title_id" = Some t →
  rows d Title !! t = Some trow →
  rows d Review !! k = Some r →
  r !! "title" = Some (PInt t) →
  r !! "author" = Some (PInt (user (ctx_request ctx))) →
  ReviewSerializer.validate d ctx data =
    Raise (ValidationError "Нельзя добавить больше одного отзыва") ∧
  (∀ attrs : row,
     attrs !! "title" = Some (PInt t) →
     attrs !! "author" = Some (PInt (user (ctx_request ctx))) →
     objects_create d Review attrs = Raise (IntegrityError "unique review")) ∧
  (∀ (attrs : row) d' pk,
     one_review_per_pair d →
     objects_create d Review attrs = Ok (d', pk) →
     one_review_per_pair d').
Proof.
  intros Hm Hkw Ht Hk Hrt Hra. split; [|split].
  - rewrite (validate_title_found d ctx data t trow) by done. rewrite Hm. cbn.
    rewrite (exists_true _ k r); [done|].
    apply objects_filter_lookup. split; [done|].
    unfold matches. rewrite !Forall_cons, Forall_nil. done.
  - intros attrs Hat Haa. apply (objects_create_duplicate d k r); congruence.
  - intros attrs d' pk. apply objects_create_one_review_per_pair.
Qed.

(** C10.  The existence check runs for POST only.  With any other method
    [validate] raises no validation error, and once the title of the URL is
    found it returns the data as they are, whatever reviews are stored. *)
Theorem validate_checks_post_only (d : db) (ctx : context) (data : row) :
  method (ctx_request ctx) ≠ "POST" →
  (∀ msg, ReviewSerializer.validate d ctx data ≠ Raise (ValidationError msg)) ∧
  (∀ t trow,
     view_kwargs ctx !! "title_id" = Some t →
     rows d Title !! t = Some trow →
     ReviewSerializer.validate d ctx data = Ok data).
Proof.
  intros Hm. apply String.eqb_neq in Hm. split.
  - intros msg. unfold ReviewSerializer.validate, get_object_or_404.
    destruct (view_kwargs ctx !! "title_id") as [t|]; [|done].
    destruct (rows d Title !! t); [|done]. cbn. by rewrite Hm.
  - intros t trow Hkw Ht.
    rewrite (validate_title_found d ctx data t trow) by done. by rewrite Hm.
Qed.

Lemma duplicate_review_rejected_witness :
  ReviewSerializer.validate Sample.store (Sample.ctx "POST") ∅ =
    Raise (ValidationError "Нельзя добавить больше одного отзыва") ∧
  objects_create Sample.store Review
    {[ "title" := PInt 1; "author" := PInt 7; "text" := PStr "Again" ]} =
    Raise (IntegrityError "unique review").
Proof.
  pose proof (duplicate_review_rejected Sample.store (Sample.ctx "POST") ∅
                1 Sample.solaris 3 Sample.praise) as H.
  destruct H as (Hv & Hc & _); [reflexivity..|].
  split; [exact Hv|]. apply Hc; reflexivity.
Defined.

Lemma validate_checks_post_only_witness :
  "PATCH" ≠ "POST" ∧
  ReviewSerializer.validate Sample.store (Sample.ctx "PATCH") ∅ = Ok ∅.
Proof.
  split; [discriminate|].
  apply (proj2 (validate_checks_post_only Sample.store (Sample.ctx "PATCH") ∅
                  ltac:(discriminate)) 1 Sample.solaris); reflexivity.
Defined.

(** ** Serialization *)

Section Serialization.
Implicit Types (d : db) (pk k : Z) (r : row).

Lemma get_fields_Review :
  get_fields ReviewSerializer.Meta =
  [ ("id", ModelField true);
    ("author", SlugRelatedField "username" true);
    ("title", SlugRelatedField "name" true);
    ("text", ModelField false);
    ("score", ModelField false);
    ("pub_date", ModelField false) ].
Proof. reflexivity. Qed.

Lemma get_fields_Comment :
  get_fields CommentSerializer.Meta =
  [ ("id", ModelField true);
    ("author", SlugRelatedField "username" true);
    ("reviews", SlugRelatedField "text" true);
    ("text", ModelField false);
    ("review", PrimaryKeyRelatedField Review) ].
Proof. reflexivity. Qed.

Lemma render_model_field d ro v :
  render d (ModelField ro) (AValue v) = Rendered v.
Proof. by destruct v. Qed.

(** Reading a foreign key of an instance fetches the row it points to. *)
Lemma get_attribute_related d m pk r name to k r' :
  List.find (fun ft => String.eqb ft.1 name) (forward_relations m)
    = Some (name, to) →
  r !! name = Some (PInt k) →
  rows d to !! k = Some r' →
  get_attribute d m pk r name = ARelated to k r'.
Proof. intros Hf Hr Hk. unfold get_attribute. by rewrite Hf, Hr; cbn; rewrite Hk. Qed.

(** Reading a column of an instance. *)
Lemma get_attribute_column d m pk r name :
  List.find (fun ft => String.eqb ft.1 name) (forward_relations m) = None →
  String.eqb name "id" || String.eqb name "pk" = false →
  bool_decide (name ∈ columns m) = true →
  get_attribute d m pk r name = AValue (Py.get r name).
Proof. intros Hf Hid Hc. unfold get_attribute. by rewrite Hf, Hid, Hc. Qed.

(** Reading the primary key of an instance. *)
Lemma get_attribute_id d m pk r :
  List.find (fun ft => String.eqb ft.1 "id") (forward_relations m) = None →
  get_attribute d m pk r "id" = AValue (PInt pk).
Proof. intros Hf. unfold get_attribute. by rewrite Hf. Qed.

Lemma render_slug d slug ro to k r' :
  List.find (fun ft => String.eqb ft.1 slug) (forward_relations to) = None →
  String.eqb slug "id" || String.eqb slug "pk" = false →
  bool_decide (slug ∈ columns to) = true →
  render d (SlugRelatedField slug ro) (ARelated to k r') =
  Rendered (Py.get r' slug).
Proof.
  intros Hf Hid Hc. cbn [render].
  by rewrite (get_attribute_column d to k r' slug).
Qed.

End Serialization.

(** C8.  A Review whose author and title are stored is rendered as the
    object with exactly the keys [id], [author], [title], [text], [score]
    and [pub_date], where [author] is the author's username and [title] the
    title's name. *)
Theorem review_representation (d : db) (pk : Z) (r : row)
    (u : Z) (urow : row) (t : Z) (trow : row) :
  r !! "author" = Some (PInt u) → rows d User !! u = Some urow →
  r !! "title" = Some (PInt t) → rows d Title !! t = Some trow →
  to_representation ReviewSerializer.Meta d pk r =
  Some [ ("id", PInt pk);
         ("author", Py.get urow "username");
         ("title", Py.get trow "name");
         ("text", Py.get r "text");
         ("score", Py.get r "score");
         ("pub_date", Py.get r "pub_date") ].
Proof.
  intros Ha Hu Ht Htr. unfold to_representation.
  rewrite get_fields_Review. cbn [represent model ReviewSerializer.Meta].
  rewrite (get_attribute_related d Review pk r "author" User u urow) by done.
  rewrite (get_attribute_related d Review pk r "title" Title t trow) by done.
  rewrite !render_slug by done.
  rewrite (get_attribute_id d Review pk r) by done.
  rewrite (get_attribute_column d Review pk r "text") by done.
  rewrite (get_attribute_column d Review pk r "score") by done.
  rewrite (get_attribute_column d Review pk r "pub_date") by done.
  rewrite !render_model_field. reflexivity.
Qed.

Lemma review_representation_witness :
  to_representation ReviewSerializer.Meta Sample.store 3 Sample.praise =
  Some [ ("id", PInt 3);
         ("author", PStr "alice");
         ("title", PStr "Solaris");
         ("text", PStr "A masterpiece");
         ("score", PInt 10);
         ("pub_date", PStr "2023-02-19T13:06:00Z") ].
Proof.
  exact (review_representation Sample.store 3 Sample.praise 7 Sample.alice
           1 Sample.solaris eq_refl eq_refl eq_refl eq_refl).
Defined.

(** C6.  A Comment whose author and review are stored is rendered as an
    object that holds the comment's [text], its parent [review] (as the
    review's primary key) and its [author] as the author's username; the
    declared field [reviews] names no attribute of a Comment and is left
    out. *)
Theorem comment_representation (d : db) (pk : Z) (c : row)
    (u : Z) (urow : row) (rv : Z) (rrow : row) :
  c !! "author" = Some (PInt u) → rows d User !! u = Some urow →
  c !! "review" = Some (PInt rv) → rows d Review !! rv = Some rrow →
  to_representation CommentSerializer.Meta d pk c =
  Some [ ("id", PInt pk);
         ("author", Py.get urow "username");
         ("text", Py.get c "text");
         ("review", PInt rv) ].
Proof.
  intros Ha Hu Hr Hrv. unfold to_representation.
  rewrite get_fields_Comment. cbn [represent model CommentSerializer.Meta].
  rewrite (get_attribute_related d Comment pk c "author" User u urow) by done.
  rewrite (get_attribute_related d Comment pk c "review" Review rv rrow) by done.
  rewrite render_slug by done.
  rewrite (get_attribute_id d Comment pk c) by done.
  rewrite (get_attribute_column d Comment pk c "text") by done.
  assert (Hs : get_attribute d Comment pk c "reviews" = AttributeError)
    by reflexivity.
  rewrite Hs.
  change (render d (SlugRelatedField "text" true) AttributeError) with SkipField.
  rewrite !render_model_field. reflexivity.
Qed.

Lemma comment_representation_witness :
  to_representation CommentSerializer.Meta Sample.store 5 Sample.reply =
  Some [ ("id", PInt 5);
         ("author", PStr "alice");
         ("text", PStr "Agreed");
         ("review", PInt 3) ].
Proof.
  exact (comment_representation Sample.store 5 Sample.reply 7 Sample.alice
           3 Sample.praise eq_refl eq_refl eq_refl eq_refl).
Defined.

(** ** Validation of users, sign-up and tokens *)

(** Concrete runs use the sample imports. *)
#[local] Existing Instance Sample.imports.
#[local] Existing Instance Sample.framework.

Section UserValidation.
Context `{Imports}.

Lemma existsb_contains role (cs : list choice) :
  existsb (fun i => contains role i) cs = true ↔
  ∃ c, c ∈ cs ∧ contains role c = true.
Proof.
  rewrite existsb_exists. setoid_rewrite <- list_elem_of_In. done.
Qed.

Lemma unique_constraints_User : unique_constraints User = [].
Proof. reflexivity. Qed.

(** Both [create] methods store the same text as confirmation code: the
    printed form of the function object. *)
Lemma create_stores_function_text (create : db → row → result (db * Z))
    d vd d' pk :
  create ∈ [UserSerializer.create; AdminOrSuperAdminUserSerializer.create] →
  create d vd = Ok (d', pk) →
  ∃ u, rows d' User !! pk = Some u ∧
       u !! "confirmation_code" = Some (PStr (str get_unique_confirmation_code)).
Proof.
  intros Hc. assert (create = UserSerializer.create) as ->.
  { apply elem_of_cons in Hc as [->|Hc]; [done|].
    apply elem_of_cons in Hc as [->|Hc]; [done|]. by apply elem_of_nil in Hc. }
  unfold UserSerializer.create, objects_create.
  rewrite unique_constraints_User. cbn. intros [= <- <-].
  eexists. rewrite rows_insert_eq, lookup_insert_eq. split; [done|].
  by rewrite lookup_insert_eq.
Qed.

End UserValidation.

(** C2.  Once the username and the email pass their validators, the
    validation of the admin serializer raises "Задана не существующая роль"
    exactly when the submitted role IS found in an entry of [CHOICE_ROLES],
    and returns the data exactly when it is found in none. *)
Theorem admin_validate_raises_on_listed_role `{Imports} (data : row) :
  username_validate (str (Py.get data "username")) = Ok () →
  email_validate (str (Py.get data "email")) = Ok () →
  (AdminOrSuperAdminUserSerializer.validate data =
     Raise (ValidationError "Задана не существующая роль") ↔
   ∃ c, c ∈ CHOICE_ROLES ∧ contains (str (Py.get data "role")) c = true) ∧
  (AdminOrSuperAdminUserSerializer.validate data = Ok data ↔
   ¬ ∃ c, c ∈ CHOICE_ROLES ∧ contains (str (Py.get data "role")) c = true).
Proof.
  intros Hu He. unfold AdminOrSuperAdminUserSerializer.validate.
  rewrite Hu, He. cbn. rewrite <- existsb_contains.
  destruct (existsb _ _); split; split; done.
Qed.

Lemma admin_validate_raises_on_listed_role_witness :
  AdminOrSuperAdminUserSerializer.validate (<["role" := PStr "moderator"]> Sample.alice) =
    Raise (ValidationError "Задана не существующая роль") ∧
  AdminOrSuperAdminUserSerializer.validate (<["role" := PStr "superhero"]> Sample.alice) =
    Ok (<["role" := PStr "superhero"]> Sample.alice).
Proof.
  split.
  - apply (admin_validate_raises_on_listed_role
             (<["role" := PStr "moderator"]> Sample.alice));
      [reflexivity | reflexivity |].
    exists (ChoiceTuple ["moderator"; "moderator"]). split; [|reflexivity].
    right. left.
  - apply (admin_validate_raises_on_listed_role
             (<["role" := PStr "superhero"]> Sample.alice));
      [reflexivity | reflexivity |].
    intros (c & Hc & Hin). revert Hin.
    repeat (apply elem_of_cons in Hc as [->|Hc]; [discriminate|]).
    by apply elem_of_nil in Hc.
Defined.

(** C3.  The validation of a sign-up never looks at the submitted email:
    replacing it changes nothing to the verdict, which is that of the
    username validator and of the email validator, both applied to the
    username. *)
Theorem signup_validates_username_twice `{Imports} (data : row) :
  (∀ e, is_ok (SignUpSerializer.validate (<["email" := e]> data)) =
        is_ok (SignUpSerializer.validate data)) ∧
  is_ok (SignUpSerializer.validate data) =
    is_ok (username_validate (str (Py.get data "username"))) &&
    is_ok (email_validate (str (Py.get data "username"))).
Proof.
  unfold SignUpSerializer.validate, Py.get. split.
  - intros e. rewrite lookup_insert_ne by done.
    destruct (username_validate _); [|done]. cbn.
    by destruct (email_validate _).
  - destruct (username_validate _); [|done]. cbn.
    by destruct (email_validate _).
Qed.

(** With validators that tell an email by its [@], a sign-up with a proper
    email is refused for its username, and one with a username shaped like
    an email passes whatever its email. *)
Lemma signup_sample :
  SignUpSerializer.validate
    {[ "username" := PStr "alice"; "email" := PStr "alice@example.com" ]} =
    Raise (ValidationError "invalid email") ∧
  is_ok (SignUpSerializer.validate
           {[ "username" := PStr "bob@example.com"; "email" := PStr "nonsense" ]})
    = true.
Proof. split; reflexivity. Qed.

(** C4.  Any two users created through the serializers, in whatever states
    of the database, are stored with the same confirmation code: the
    printed form of the function [get_unique_confirmation_code], which is
    never called. *)
Theorem created_users_share_confirmation_code `{Imports}
    (create1 create2 : db → row → result (db * Z))
    (d1 d2 : db) (vd1 vd2 : row) (d1' d2' : db) (pk1 pk2 : Z) :
  create1 ∈ [UserSerializer.create; AdminOrSuperAdminUserSerializer.create] →
  create2 ∈ [UserSerializer.create; AdminOrSuperAdminUserSerializer.create] →
  create1 d1 vd1 = Ok (d1', pk1) →
  create2 d2 vd2 = Ok (d2', pk2) →
  ∃ u1 u2, rows d1' User !! pk1 = Some u1 ∧ rows d2' User !! pk2 = Some u2 ∧
           u1 !! "confirmation_code" =
             Some (PStr (str get_unique_confirmation_code)) ∧
           u2 !! "confirmation_code" = u1 !! "confirmation_code".
Proof.
  intros Hc1 Hc2 H1 H2.
  destruct (create_stores_function_text create1 d1 vd1 d1' pk1 Hc1 H1)
    as (u1 & Hu1 & Hcode1).
  destruct (create_stores_function_text create2 d2 vd2 d2' pk2 Hc2 H2)
    as (u2 & Hu2 & Hcode2).
  exists u1, u2. by rewrite Hcode1, Hcode2.
Qed.

Lemma created_users_share_confirmation_code_witness :
  ∃ d1 d2 u1 u2,
    UserSerializer.create Sample.store Sample.bob = Ok (d1, 8) ∧
    AdminOrSuperAdminUserSerializer.create d1 Sample.carol = Ok (d2, 9) ∧
    rows d1 User !! 8 = Some u1 ∧ rows d2 User !! 9 = Some u2 ∧
    u1 !! "username" = Some (PStr "bob") ∧
    u2 !! "username" = Some (PStr "carol") ∧
    u1 !! "confirmation_code" =
      Some (PStr "<function get_unique_confirmation_code at 0x7f3a5c1d2e50>") ∧
    u2 !! "confirmation_code" = u1 !! "confirmation_code".
Proof.
  pose (code := PStr (str get_unique_confirmation_code)).
  pose (d1 := <[User := <[8 := <["confirmation_code" := code]> Sample.bob]>
                          (rows Sample.store User)]> Sample.store).
  pose (d2 := <[User := <[9 := <["confirmation_code" := code]> Sample.carol]>
                          (rows d1 User)]> d1).
  assert (H1 : UserSerializer.create Sample.store Sample.bob = Ok (d1, 8))
    by reflexivity.
  assert (H2 : AdminOrSuperAdminUserSerializer.create d1 Sample.carol = Ok (d2, 9))
    by reflexivity.
  destruct (created_users_share_confirmation_code
              UserSerializer.create AdminOrSuperAdminUserSerializer.create
              Sample.store d1 Sample.bob Sample.carol d1 d2 8 9)
    as (u1 & u2 & Hu1 & Hu2 & Hc1 & Hc2);
    [left | right; left | exact H1 | exact H2 |].
  exists d1, d2, u1, u2. repeat split; try done.
  - assert (u1 = <["confirmation_code" := code]> Sample.bob) as ->; [|done].
    apply (inj Some). rewrite <- Hu1. subst d1. by rewrite rows_insert_eq, lookup_insert_eq.
  - assert (u2 = <["confirmation_code" := code]> Sample.carol) as ->; [|done].
    apply (inj Some). rewrite <- Hu2. subst d2. by rewrite rows_insert_eq, lookup_insert_eq.
Defined.



(** ** Read-only fields *)

(** Splits the membership [H] in an explicit list into its cases. *)
Ltac elem_cases H :=
  repeat (apply elem_of_cons in H as [H|H]);
  [..| by apply elem_of_nil in H].

Section Deserialization.
Context `{Framework}.
Implicit Types (fs : list (string * field)) (data : row).
Implicit Types (errs : list (string * string)) (vals : list (string * value)).

(** Every validated value belongs to a writable field. *)
Lemma to_internal_value_writable partial m fs data errs vals name :
  to_internal_value partial m fs data = (errs, vals) →
  name ∈ vals.*1 →
  ∃ f, (name, f) ∈ fs ∧ read_only f = false.
Proof.
  revert errs vals. induction fs as [|[n f] fs IH]; intros errs vals; cbn.
  - intros [= <- <-] Hin. by apply elem_of_nil in Hin.
  - destruct (to_internal_value partial m fs data) as [errs0 vals0].
    assert (Hrec : name ∈ vals0.*1 →
                   ∃ f0, (name, f0) ∈ (n, f) :: fs ∧ read_only f0 = false).
    { intros Hin. destruct (IH _ _ eq_refl Hin) as (f0 & Hf0 & Hro).
      exists f0. split; [by right|done]. }
    assert (Hhere : read_only f = false → ∀ v, name ∈ ((n, v) :: vals0).*1 →
                    ∃ f0, (name, f0) ∈ (n, f) :: fs ∧ read_only f0 = false).
    { intros Hro v [->|Hin]%elem_of_cons; [|by apply Hrec].
      exists f. split; [by left|done]. }
    destruct (read_only f) eqn:Hro; [by intros [= <- <-]|].
    destruct (data !! n) as [v|].
    + destruct (run_field_validation n f v); intros [= <- <-]; eauto.
    + destruct partial; [by intros [= <- <-]|].
      destruct (field_default f); [intros [= <- <-]; eauto|].
      destruct (required m n f); intros [= <- <-]; eauto.
Qed.

(** The validated values follow the order of the fields. *)
Lemma to_internal_value_sublist partial m fs data errs vals :
  to_internal_value partial m fs data = (errs, vals) →
  vals.*1 `sublist_of` fs.*1.
Proof.
  revert errs vals. induction fs as [|[n f] fs IH]; intros errs vals; cbn.
  - intros [= <- <-]. constructor.
  - destruct (to_internal_value partial m fs data) as [errs0 vals0].
    specialize (IH _ _ eq_refl).
    destruct (read_only f); [intros [= <- <-]; by constructor|].
    destruct (data !! n) as [v|].
    + destruct (run_field_validation n f v); intros [= <- <-]; by constructor.
    + destruct partial; [intros [= <- <-]; by constructor|].
      destruct (field_default f); [intros [= <- <-]; by constructor|].
      destruct (required m n f); intros [= <- <-]; by constructor.
Qed.

(** Without field errors, every value submitted for a writable field was
    cleaned and is among the validated values. *)
Lemma to_internal_value_submitted partial m fs data vals name f v :
  to_internal_value partial m fs data = ([], vals) →
  (name, f) ∈ fs → read_only f = false → data !! name = Some v →
  ∃ v', run_field_validation name f v = inr v' ∧ (name, v') ∈ vals.
Proof.
  revert vals. induction fs as [|[n f0] fs IH]; intros vals; cbn.
  - intros _ Hin. by apply elem_of_nil in Hin.
  - destruct (to_internal_value partial m fs data) as [errs0 vals0].
    intros Heq Hin Hro Hv.
    assert (Hrec : errs0 = [] → (name, f) ∈ fs →
                   ∃ v', run_field_validation name f v = inr v' ∧ (name, v') ∈ vals0).
    { intros -> Hin'. by apply IH. }
    apply elem_of_cons in Hin as [[= <- <-]|Hin].
    + rewrite Hro, Hv in Heq.
      destruct (run_field_validation name f v) as [e|v']; [done|].
      injection Heq as -> <-. exists v'. split; [done|by left].
    + destruct (read_only f0).
      { injection Heq as -> <-. by apply Hrec. }
      destruct (data !! n) as [w|].
      * destruct (run_field_validation n f0 w); [done|].
        injection Heq as -> <-. destruct Hrec as (v' & ? & ?); [done..|].
        exists v'. split; [done|by right].
      * destruct partial.
        { injection Heq as -> <-. by apply Hrec. }
        destruct (field_default f0).
        { injection Heq as -> <-. destruct Hrec as (v' & ? & ?); [done..|].
          exists v'. split; [done|by right]. }
        destruct (required m n f0); [done|].
        injection Heq as -> <-. by apply Hrec.
Qed.

(** A value submitted for a read-only field is ignored. *)
Lemma to_internal_value_read_only partial m fs data name v :
  (∀ f, (name, f) ∈ fs → read_only f = true) →
  to_internal_value partial m fs (<[name := v]> data) =
  to_internal_value partial m fs data.
Proof.
  induction fs as [|[n f] fs IH]; intros Hro; cbn; [done|].
  rewrite IH by (intros f0 Hin; apply Hro; by right).
  destruct (to_internal_value partial m fs data) as [errs0 vals0].
  destruct (read_only f) eqn:Hf; [done|].
  destruct (decide (name = n)) as [->|Hne].
  - rewrite (Hro f) in Hf; [done|by left].
  - by rewrite lookup_insert_ne.
Qed.

End Deserialization.

Section Me.
Context `{Imports, Framework}.

Lemma get_fields_Me :
  get_fields MeSerializer.Meta =
  [ ("email", EmailField 254);
    ("username", CharField 150 false None);
    ("first_name", ModelField false);
    ("last_name", ModelField false);
    ("bio", ModelField false);
    ("role", CharField 15 true None) ].
Proof. reflexivity. Qed.

Lemma Me_validate_returns data data' :
  MeSerializer.validate data = Ok data' → data' = data.
Proof.
  unfold MeSerializer.validate.
  destruct (username_validate _); [|done]. cbn.
  destruct (email_validate _); [|done]. cbn. congruence.
Qed.

End Me.

(** C9.  Editing a profile through [MeSerializer] ignores the submitted
    role: the outcome is the same whatever role the request carries, and a
    saved profile keeps the role it had; the values submitted for [email],
    [username], [first_name], [last_name] and [bio] are stored once
    cleaned. *)
Theorem me_role_read_only `{Imports, Framework}
    (partial : bool) (d : db) (pk : Z) (data : row) :
  (∀ v, MeSerializer.save partial d pk (<["role" := v]> data) =
        MeSerializer.save partial d pk data) ∧
  (∀ d' r,
     rows d User !! pk = Some r →
     MeSerializer.save partial d pk data = Ok d' →
     ∃ r', rows d' User !! pk = Some r' ∧
           r' !! "role" = r !! "role" ∧
           ∀ name v,
             name ∈ ["email"; "username"; "first_name"; "last_name"; "bio"] →
             data !! name = Some v →
             ∃ f v', (name, f) ∈ get_fields MeSerializer.Meta ∧
                     run_field_validation name f v = inr v' ∧
                     r' !! name = Some v').
Proof.
  split.
  - intros v. unfold MeSerializer.save, save_update, run_validation.
    rewrite to_internal_value_read_only; [done|].
    rewrite get_fields_Me. intros f Hin.
    elem_cases Hin; by simplify_eq.
  - intros d' r Hr. unfold MeSerializer.save, save_update, run_validation.
    change (model MeSerializer.Meta) with User.
    unfold get_object_or_404. rewrite Hr. cbn [Py.bind snd].
    destruct (to_internal_value _ _ _ _) as [errs vals] eqn:Hint.
    destruct errs as [|e errs]; [|done].
    destruct (run_validators _ _ _ _); [|done]. cbn [Py.bind].
    destruct (MeSerializer.validate _) as [vd|] eqn:Hvd; [|done].
    apply Me_validate_returns in Hvd as ->. cbn [Py.bind].
    unfold update, Orm.save. rewrite unique_constraints_User.
    cbn [violated List.find fmap option_fmap option_map]. intros [= <-].
    rewrite rows_insert_eq, lookup_insert_eq.
    assert (Hnd : NoDup vals.*1).
    { eapply sublist_NoDup; [|by eapply to_internal_value_sublist].
      rewrite get_fields_Me. cbn. apply NoDup_ListNoDup.
      repeat (constructor; [cbn; intuition discriminate|]). constructor. }
    eexists. split; [done|]. split.
    + apply lookup_union_r, not_elem_of_list_to_map_1. intros Hin.
      destruct (to_internal_value_writable _ _ _ _ _ _ _ Hint Hin)
        as (f & Hf & Hro).
      rewrite get_fields_Me in Hf.
      elem_cases Hf; by simplify_eq.
    + intros name v Hname Hv.
      assert (Hw : ∃ f, (name, f) ∈ get_fields MeSerializer.Meta ∧
                        read_only f = false).
      { rewrite get_fields_Me.
        elem_cases Hname; subst name;
          (eexists; split; [repeat first [by left | right]|done]). }
      destruct Hw as (f & Hf & Hro).
      destruct (to_internal_value_submitted _ _ _ _ _ _ _ _ Hint Hf Hro Hv)
        as (v' & Hclean & Hin).
      exists f, v'. split; [done|]. split; [done|].
      apply lookup_union_Some_l. by apply elem_of_list_to_map_1.
Qed.

Lemma me_role_read_only_witness :
  ∃ d' r',
    MeSerializer.save true Sample.store 7 Sample.edit = Ok d' ∧
    rows d' User !! 7 = Some r' ∧
    r' !! "role" = Some (PStr "user") ∧
    r' !! "email" = Some (PStr "alicia@example.org") ∧
    r' !! "username" = Some (PStr "alicia") ∧
    r' !! "first_name" = Some (PStr "Alicia") ∧
    r' !! "last_name" = Some (PStr "Liddell") ∧
    r' !! "bio" = Some (PStr "Reader").
Proof.
  assert (Hs : ∃ d', MeSerializer.save true Sample.store 7 Sample.edit = Ok d')
    by (eexists; reflexivity).
  destruct Hs as [d' Hs].
  destruct (proj2 (me_role_read_only true Sample.store 7 Sample.edit)
              d' Sample.alice eq_refl Hs) as (r' & Hr' & Hrole & Hfields).
  assert (Hstored : ∀ name s,
            name ∈ ["email"; "username"; "first_name"; "last_name"; "bio"] →
            Sample.edit !! name = Some (PStr s) → r' !! name = Some (PStr s)).
  { intros name s Hname Hv.
    destruct (Hfields name (PStr s) Hname Hv) as (f & v' & _ & Hclean & Hst).
    cbn in Hclean. by injection Hclean as <-. }
  exists d', r'. split; [done|]. split; [done|]. split; [by rewrite Hrole|].
  repeat split; (apply Hstored; [repeat first [by left | right]|reflexivity]).
Defined.

(** * Further properties *)

(** ** What a deletion takes along *)

Section DeletionSpec.
Implicit Types (d : db) (m : string) (k : Z) (r : row) (ids : gset Z).

(** Every declared foreign key cascades. *)
Lemma operations_cascade m f to od :
  AddField m f to od ∈ operations → (label m, f) ∈ cascading_referrers to.
Proof.
  intros Hop. unfold operations in Hop.
  elem_cases Hop; simplify_eq; by apply (bool_decide_unpack _).
Qed.

(** The collected list is closed under the cascading foreign keys. *)
Lemma collect_closed d m ids m1 ids1 m2 f :
  (m1, ids1) ∈ collect 2 d m ids →
  (m2, f) ∈ cascading_referrers m1 →
  (m2, pointing d m2 f ids1) ∈ collect 2 d m ids.
Proof.
  intros H1 H2.
  destruct (decide (m = User)) as [->|HU].
  { rewrite collect_User in *. elem_cases H1; simplify_eq;
      [rewrite cascading_referrers_User in H2
      |rewrite cascading_referrers_Review in H2
      |rewrite cascading_referrers_Comment in H2
      |rewrite cascading_referrers_Raiting in H2
      |rewrite cascading_referrers_Comment in H2];
      elem_cases H2; simplify_eq; repeat first [by left | right]. }
  destruct (decide (m = Title)) as [->|HT].
  { rewrite collect_Title in *. elem_cases H1; simplify_eq;
      [rewrite cascading_referrers_Title in H2
      |rewrite cascading_referrers_Review in H2
      |rewrite cascading_referrers_Comment in H2
      |rewrite cascading_referrers_Raiting in H2];
      elem_cases H2; simplify_eq; repeat first [by left | right]. }
  destruct (decide (m = Review)) as [->|HR].
  { rewrite collect_Review in *. elem_cases H1; simplify_eq;
      [rewrite cascading_referrers_Review in H2
      |rewrite cascading_referrers_Comment in H2];
      elem_cases H2; simplify_eq; repeat first [by left | right]. }
  rewrite collect_leaf in H1 by by apply cascading_referrers_other.
  elem_cases H1. simplify_eq.
  rewrite cascading_referrers_other in H2 by done. by apply elem_of_nil in H2.
Qed.

Lemma doomed_lift d m ids m0 ids0 m' k :
  (∀ k0, k0 ∈ ids0 → doomed d m ids m0 k0) →
  doomed d m0 ids0 m' k → doomed d m ids m' k.
Proof.
  intros Hstart. induction 1 as [|? ? ? ? ? ? _ IH]; [by apply Hstart|].
  by eapply doomed_referrer.
Qed.

(** Whatever is collected is doomed ... *)
Lemma collect_doomed n d m ids m' ids' k :
  (m', ids') ∈ collect n d m ids → k ∈ ids' → doomed d m ids m' k.
Proof.
  revert m ids. induction n as [|n IH]; intros m ids; cbn [collect].
  - intros Hin Hk. elem_cases Hin. simplify_eq. by constructor.
  - intros [Hin|Hin]%elem_of_cons Hk; [simplify_eq; by constructor|].
    apply list_elem_of_In, in_flat_map in Hin as ([m2 f] & Hmf & Hin).
    apply list_elem_of_In in Hmf, Hin. cbn [fst snd] in Hin.
    eapply doomed_lift; [|by eapply IH].
    intros k0 (r & k' & Hr & Hf & Hk')%elem_of_pointing.
    eapply doomed_referrer; [by apply doomed_start|done..].
Qed.

(** ... and whatever is doomed is collected. *)
Lemma doomed_collected d m ids m' k :
  doomed d m ids m' k →
  ∃ ids', (m', ids') ∈ collect 2 d m ids ∧ k ∈ ids'.
Proof.
  induction 1 as [k Hk|m1 k1 m2 f k2 r _ (ids1 & Hin & Hk1) Hmf Hr Hf].
  - exists ids. split; [|done]. cbn [collect]. by left.
  - exists (pointing d m2 f ids1). split; [by eapply collect_closed|].
    apply elem_of_pointing. eauto.
Qed.

(** A row is stored after a deletion exactly when it was stored and is
    not doomed. *)
Lemma delete_instance_lookup d m pk m' k r :
  rows (delete_instance d m pk) m' !! k = Some r ↔
  rows d m' !! k = Some r ∧ ¬ doomed d m {[pk]} m' k.
Proof.
  unfold delete_instance. change (length models) with 5%nat.
  rewrite (collect_enough 3), rows_foldr_remove_rows.
  split; intros [Hr Hn]; (split; [done|]).
  - intros (ids' & Hin & Hk)%doomed_collected. by apply (Hn ids').
  - intros ids' Hin Hk. apply Hn. by eapply collect_doomed.
Qed.

Lemma delete_instance_kept d m pk m' k :
  ¬ doomed d m {[pk]} m' k →
  rows (delete_instance d m pk) m' !! k = rows d m' !! k.
Proof.
  intros Hn. destruct (rows d m' !! k) as [r|] eqn:Hr.
  - by apply delete_instance_lookup.
  - apply eq_None_not_Some. intros [r Hr'].
    apply delete_instance_lookup in Hr' as [Hr' _]. congruence.
Qed.

Lemma delete_instance_gone d m pk m' k :
  doomed d m {[pk]} m' k → rows (delete_instance d m pk) m' !! k = None.
Proof.
  intros Hd. apply eq_None_not_Some. intros [r Hr].
  by apply delete_instance_lookup in Hr as [_ Hr].
Qed.

(** The doomed rows of a table that nothing was collected from. *)
Lemma not_doomed_table d m ids m' k :
  (∀ ids', (m', ids') ∉ collect 2 d m ids) → ¬ doomed d m ids m' k.
Proof. intros Hno (ids' & Hin & _)%doomed_collected. by apply (Hno ids'). Qed.

End DeletionSpec.


(** X2.  A deletion keeps the foreign keys resolved: if every foreign key
    of the migration pointed to a stored row, it still does afterwards. *)
Theorem delete_instance_integrity (d : db) (m : string) (pk : Z) :
  referential_integrity d →
  referential_integrity (delete_instance d m pk).
Proof.
  intros Hri m1 f to od k r k' Hop Hr Hf.
  apply delete_instance_lookup in Hr as [Hr Hn].
  destruct (Hri _ _ _ _ _ _ _ Hop Hr Hf) as [r' Hr'].
  exists r'. apply delete_instance_lookup. split; [done|].
  intros Hd. apply Hn.
  eapply doomed_referrer; [exact Hd|by eapply operations_cascade|done..].
Qed.

Lemma sample_store_integrity : referential_integrity Sample.store.
Proof.
  assert (HRv : rows Sample.store Review = {[ 3 := Sample.praise ]}) by reflexivity.
  assert (HRa : rows Sample.store Raiting = ∅) by reflexivity.
  assert (HCo : rows Sample.store Comment = {[ 5 := Sample.reply ]}) by reflexivity.
  intros m f to od k r k' Hop Hr Hf. unfold operations in Hop.
  elem_cases Hop; simplify_eq;
    first [ change (label "review") with Review in Hr; rewrite HRv in Hr
          | change (label "raiting") with Raiting in Hr; rewrite HRa in Hr
          | change (label "comment") with Comment in Hr; rewrite HCo in Hr ];
    first [ by rewrite lookup_empty in Hr
          | apply lookup_singleton_Some in Hr as [<- <-];
            vm_compute in Hf; simplify_eq; by eexists ].
Qed.

Lemma delete_instance_integrity_witness :
  referential_integrity Sample.store ∧
  referential_integrity (delete_instance Sample.store User 7).
Proof.
  split; [exact sample_store_integrity|].
  exact (delete_instance_integrity Sample.store User 7 sample_store_integrity).
Defined.

(** X3.  Deleting a user deletes the user, the user's reviews, comments and
    ratings; a comment that remains refers to a review that was not deleted;
    no title is deleted. *)
Theorem delete_user_cascades (d : db) (u : Z) :
  let d' := delete_instance d User u in
  rows d' User !! u = None ∧
  (∀ k r, rows d' Review !! k = Some r → r !! "author" ≠ Some (PInt u)) ∧
  (∀ k c, rows d' Comment !! k = Some c → c !! "author" ≠ Some (PInt u)) ∧
  (∀ k r, rows d' Raiting !! k = Some r → r !! "author" ≠ Some (PInt u)) ∧
  (∀ k c kr, rows d' Comment !! k = Some c →
             c !! "review" = Some (PInt kr) →
             rows d' Review !! kr = rows d Review !! kr) ∧
  rows d' Title = rows d Title.
Proof.
  intros d'. subst d'.
  assert (Hu : doomed d User {[u]} User u) by (constructor; set_solver).
  assert (Hby : ∀ m k r, (m, "author") ∈ cascading_referrers User →
                         rows (delete_instance d User u) m !! k = Some r →
                         r !! "author" ≠ Some (PInt u)).
  { intros m k r Hm [Hr Hn]%delete_instance_lookup Ha. apply Hn.
    by eapply doomed_referrer. }
  split; [by apply delete_instance_gone|].
  split; [intros k r; apply Hby; rewrite cascading_referrers_User; set_solver|].
  split; [intros k r; apply Hby; rewrite cascading_referrers_User; set_solver|].
  split; [intros k r; apply Hby; rewrite cascading_referrers_User; set_solver|].
  split.
  - intros k c kr [Hc Hn]%delete_instance_lookup Hkr.
    apply delete_instance_kept. intros Hd. apply Hn.
    eapply doomed_referrer; [exact Hd| |done..].
    rewrite cascading_referrers_Review. set_solver.
  - apply map_eq. intros k. apply delete_instance_kept, not_doomed_table.
    intros ids' Hin. rewrite collect_User in Hin. elem_cases Hin; discriminate.
Qed.

(** X4.  Deleting a title also deletes its ratings, and spares the users,
    the other titles, the reviews of other titles and the comments on
    them. *)
Theorem delete_title_spares (d : db) (t : Z) :
  let d' := delete_instance d Title t in
  (∀ k r, rows d' Raiting !! k = Some r → r !! "title" ≠ Some (PInt t)) ∧
  rows d' User = rows d User ∧
  (∀ t', t' ≠ t → rows d' Title !! t' = rows d Title !! t') ∧
  (∀ k r, rows d Review !! k = Some r → r !! "title" ≠ Some (PInt t) →
          rows d' Review !! k = Some r) ∧
  (∀ k c, rows d Comment !! k = Some c →
          (∀ kr r, c !! "review" = Some (PInt kr) →
                   rows d Review !! kr = Some r →
                   r !! "title" ≠ Some (PInt t)) →
          rows d' Comment !! k = Some c).
Proof.
  intros d'. subst d'.
  assert (Hc : ∀ m k, doomed d Title {[t]} m k →
             ∃ ids', (m, ids') ∈ collect 2 d Title {[t]} ∧ k ∈ ids')
    by (intros m k; apply doomed_collected).
  split; [|split; [|split; [|split]]].
  - intros k r [Hr Hn]%delete_instance_lookup Ht. apply Hn.
    eapply doomed_referrer; [by apply doomed_start, elem_of_singleton| |done..].
    rewrite cascading_referrers_Title. set_solver.
  - apply map_eq. intros k. apply delete_instance_kept, not_doomed_table.
    intros ids' Hin. rewrite collect_Title in Hin. elem_cases Hin; discriminate.
  - intros t' Hne. apply delete_instance_kept.
    intros (ids' & Hin & Hk)%Hc. rewrite collect_Title in Hin.
    elem_cases Hin; simplify_eq. set_solver.
  - intros k r Hr Ht. apply delete_instance_lookup. split; [done|].
    intros (ids' & Hin & Hk)%Hc. rewrite collect_Title in Hin.
    elem_cases Hin; simplify_eq.
    apply elem_of_pointing in Hk as (r' & k' & Hr' & Hf & ->%elem_of_singleton).
    congruence.
  - intros k c Hco Hrev. apply delete_instance_lookup. split; [done|].
    intros (ids' & Hin & Hk)%Hc. rewrite collect_Title in Hin.
    elem_cases Hin; simplify_eq.
    apply elem_of_pointing in Hk as (c' & kr & Hc' & Hf & Hkr).
    apply elem_of_pointing in Hkr as (r & k' & Hr & Hft & ->%elem_of_singleton).
    simplify_eq. by eapply Hrev.
Qed.



(** ** Posting reviews *)

Section Posting.
Implicit Types (d : db) (k t u : Z) (r attrs : row).

Lemma exists_iff (tb : table) : exists_ tb = true ↔ ∃ k r, tb !! k = Some r.
Proof.
  unfold exists_. rewrite bool_decide_eq_true. split.
  - by intros (k & r & Hk)%map_choose; eauto.
  - intros (k & r & Hk) ->. by rewrite lookup_empty in Hk.
Qed.

(** The author [u] has a review of the title [t]. *)
Lemma reviewed_iff d t u :
  exists_ (objects_filter d Review [("title", PInt t); ("author", PInt u)]) = true ↔
  ∃ k r, rows d Review !! k = Some r ∧
         r !! "title" = Some (PInt t) ∧ r !! "author" = Some (PInt u).
Proof.
  rewrite exists_iff. setoid_rewrite objects_filter_lookup. unfold matches.
  setoid_rewrite Forall_cons. setoid_rewrite Forall_cons.
  setoid_rewrite Forall_nil. naive_solver.
Qed.

Lemma Review_validate_returns d ctx data data' :
  ReviewSerializer.validate d ctx data = Ok data' → data' = data.
Proof.
  unfold ReviewSerializer.validate.
  destruct (get_object_or_404 _ _ _); [|done]. cbn.
  destruct (String.eqb _ _); [|congruence].
  destruct (exists_ _); [done|congruence].
Qed.

End Posting.

(** X6.  On POST, once the title of the URL is found, [validate] returns
    the data exactly when the author has no review of this title, and
    raises the duplicate error exactly when the author has one: reviews by
    other authors or of other titles do not count. *)
Theorem post_accepted_iff (d : db) (ctx : context) (data : row)
    (t : Z) (trow : row) :
  method (ctx_request ctx) = "POST" →
  view_kwargs ctx !! "title_id" = Some t →
  rows d Title !! t = Some trow →
  (ReviewSerializer.validate d ctx data = Ok data ↔
   ¬ ∃ k r, rows d Review !! k = Some r ∧ r !! "title" = Some (PInt t) ∧
            r !! "author" = Some (PInt (user (ctx_request ctx)))) ∧
  (ReviewSerializer.validate d ctx data =
     Raise (ValidationError "Нельзя добавить больше одного отзыва") ↔
   ∃ k r, rows d Review !! k = Some r ∧ r !! "title" = Some (PInt t) ∧
          r !! "author" = Some (PInt (user (ctx_request ctx)))).
Proof.
  intros Hm Hkw Ht. rewrite (validate_title_found d ctx data t trow) by done.
  rewrite Hm. cbn. rewrite <- reviewed_iff.
  destruct (exists_ _); split; split; done.
Qed.

Lemma post_accepted_iff_witness :
  ReviewSerializer.validate Sample.store
    {| ctx_request := {| method := "POST"; user := 8 |};
       view_kwargs := {[ "title_id" := 1 ]} |} ∅ = Ok ∅.
Proof.
  apply (post_accepted_iff Sample.store
           {| ctx_request := {| method := "POST"; user := 8 |};
              view_kwargs := {[ "title_id" := 1 ]} |} ∅ 1 Sample.solaris);
    [reflexivity..|].
  intros (k & r & Hr & _ & Ha).
  change (rows Sample.store Review) with ({[ 3 := Sample.praise ]} : table) in Hr.
  apply lookup_singleton_Some in Hr as [_ <-]. by vm_compute in Ha.
Defined.

(** X7.  For a [title_id] within the range of a 32-bit key, [validate]
    raises [Http404] exactly when the URL carries no [title_id] or names no
    stored title, whatever the method and the reviews. *)
Theorem validate_404_iff (d : db) (ctx : context) (data : row) :
  (∀ t, view_kwargs ctx !! "title_id" = Some t → -2 ^ 31 ≤ t < 2 ^ 31) →
  (ReviewSerializer.validate d ctx data = Raise Http404 ↔
   ¬ ∃ t trow, view_kwargs ctx !! "title_id" = Some t ∧
               rows d Title !! t = Some trow).
Proof.
  intros _. unfold ReviewSerializer.validate, get_object_or_404.
  destruct (view_kwargs ctx !! "title_id") as [t|] eqn:Hkw.
  - destruct (rows d Title !! t) as [trow|] eqn:Ht; cbn.
    + assert (∃ t0 trow0, Some t = Some t0 ∧ rows d Title !! t0 = Some trow0)
        by eauto.
      destruct (String.eqb _ _); [destruct (exists_ _)|]; split; done.
    + split; [|done]. intros _ (t0 & trow0 & [= <-] & Ht0). congruence.
  - split; [|done]. by intros _ (t0 & trow0 & ? & _).
Qed.

Lemma validate_404_iff_witness :
  ReviewSerializer.validate Sample.store
    {| ctx_request := {| method := "PATCH"; user := 7 |};
       view_kwargs := {[ "title_id" := 2 ]} |} ∅ = Raise Http404.
Proof.
  apply (validate_404_iff Sample.store
           {| ctx_request := {| method := "PATCH"; user := 7 |};
              view_kwargs := {[ "title_id" := 2 ]} |} ∅).
  - intros t Ht. cbn [view_kwargs] in Ht.
    apply lookup_singleton_Some in Ht as [_ <-]. lia.
  - intros (t & trow & Hkw & Ht). cbn [view_kwargs] in Hkw.
    apply lookup_singleton_Some in Hkw as [_ <-].
    change (rows Sample.store Title) with ({[ 1 := Sample.solaris ]} : table) in Ht.
    by apply lookup_singleton_Some in Ht as [? _].
Defined.

(** X8.  A POST that [validate] accepts is not refused under the
    constraint [unique review]; and once its review is stored, with the
    title and the author of the request, [validate] rejects the author's
    further POSTs for the title. *)
Theorem accepted_post_is_stored_once (d : db) (ctx : context) (data : row)
    (t : Z) (trow : row) (attrs : row) :
  method (ctx_request ctx) = "POST" →
  view_kwargs ctx !! "title_id" = Some t →
  rows d Title !! t = Some trow →
  attrs !! "title" = Some (PInt t) →
  attrs !! "author" = Some (PInt (user (ctx_request ctx))) →
  ReviewSerializer.validate d ctx data = Ok data →
  objects_create d Review attrs ≠ Raise (IntegrityError "unique review") ∧
  ∀ d' pk,
    objects_create d Review attrs = Ok (d', pk) →
    rows d Review !! pk = None ∧
    (∃ r, rows d' Review !! pk = Some r ∧
          ∀ name v, attrs !! name = Some v → r !! name = Some v) ∧
    ∀ data', ReviewSerializer.validate d' ctx data' =
               Raise (ValidationError "Нельзя добавить больше одного отзыва").
Proof.
  intros Hm Hkw Ht Hat Haa Hok.
  rewrite (validate_title_found d ctx data t trow) in Hok by done.
  rewrite Hm in Hok. cbn in Hok.
  destruct (exists_ _) eqn:He; [done|]. clear Hok.
  assert (Hnone : ∀ k r, rows d Review !! k = Some r →
                         ¬ agree ["title"; "author"] r attrs).
  { intros k r Hr [Ht' Ha']%agree_title_author.
    assert (exists_ (objects_filter d Review
              [("title", PInt t); ("author", PInt (user (ctx_request ctx)))]) = true)
      as Hex by (apply reviewed_iff; exists k, r; split_and!; congruence).
    congruence. }
  assert (Hcl : clashes (rows d Review) ["title"; "author"] attrs = false).
  { apply bool_decide_eq_false. intros Hne. apply Hne.
    apply map_empty. intros k. apply map_lookup_filter_None. right.
    intros r Hr. by apply (Hnone k). }
  unfold objects_create. rewrite unique_constraints_Review. unfold violated.
  cbn [List.find fst]. rewrite Hcl. cbn. split; [done|].
  intros d' pk [= <- <-].
  set (pk := fresh (dom (rows d Review))).
  split; [apply not_elem_of_dom, is_fresh|].
  rewrite rows_insert_eq, lookup_insert_eq. split; [by exists attrs|].
  intros data'.
  rewrite (validate_title_found _ ctx data' t trow);
    [|done|by rewrite rows_insert_ne].
  rewrite Hm. cbn.
  assert (exists_ (objects_filter (<[Review := <[pk := attrs]> (rows d Review)]> d)
            Review [("title", PInt t); ("author", PInt (user (ctx_request ctx)))])
          = true) as ->; [|done].
  apply reviewed_iff. exists pk, attrs.
  by rewrite rows_insert_eq, lookup_insert_eq.
Qed.

Lemma accepted_post_is_stored_once_witness :
  ReviewSerializer.validate Sample.club Sample.post_by_dave ∅ = Ok ∅ ∧
  ∃ d' pk,
    objects_create Sample.club Review Sample.pan = Ok (d', pk) ∧
    ReviewSerializer.validate d' Sample.post_by_dave ∅ =
      Raise (ValidationError "Нельзя добавить больше одного отзыва").
Proof.
  split; [reflexivity|].
  assert (Hs : ∃ d' pk, objects_create Sample.club Review Sample.pan = Ok (d', pk))
    by (eexists _, _; reflexivity).
  destruct Hs as (d' & pk & Hs).
  destruct (accepted_post_is_stored_once Sample.club Sample.post_by_dave ∅
              1 Sample.solaris Sample.pan) as [_ Hafter]; [reflexivity..|].
  destruct (Hafter d' pk Hs) as (_ & _ & Hv).
  exists d', pk. split; [exact Hs|apply Hv].
Defined.

(** ** Editing reviews and creating users *)

(** X9.  An update of a review saved through [ReviewSerializer] keeps its
    author and its title, whatever the request carries, changes no other
    row, and so keeps at most one Review per (title, author) pair. *)
Theorem review_update_keeps_pair `{Framework}
    (partial : bool) (d : db) (ctx : context) (pk : Z) (data : row)
    (d' : db) (r : row) :
  rows d Review !! pk = Some r →
  review_save_update partial d ctx pk data = Ok d' →
  ∃ r', rows d' Review !! pk = Some r' ∧
        r' !! "author" = r !! "author" ∧
        r' !! "title" = r !! "title" ∧
        (∀ k, k ≠ pk → rows d' Review !! k = rows d Review !! k) ∧
        (∀ m, m ≠ Review → rows d' m = rows d m) ∧
        (one_review_per_pair d → one_review_per_pair d').
Proof.
  intros Hr. unfold review_save_update, save_update, run_validation.
  change (model ReviewSerializer.Meta) with Review.
  unfold get_object_or_404. rewrite Hr. cbn [Py.bind snd].
  destruct (to_internal_value _ _ _ _) as [errs vals] eqn:Hint.
  destruct errs as [|e errs]; [|done]. cbn [run_validators Py.bind].
  destruct (ReviewSerializer.validate _ _ _) as [vd|] eqn:Hvd; [|done].
  apply Review_validate_returns in Hvd as ->. cbn [Py.bind].
  unfold update, Orm.save. destruct (violated _ _ _); [done|]. intros [= <-].
  assert (Hro : ∀ name, name ∈ ["author"; "title"] →
                        (list_to_map vals : row) !! name = None).
  { intros name Hname. apply not_elem_of_list_to_map_1. intros Hin.
    destruct (to_internal_value_writable _ _ _ _ _ _ _ Hint Hin)
      as (f & Hf & Hw).
    rewrite get_fields_Review in Hf.
    elem_cases Hname; subst name; elem_cases Hf; by simplify_eq. }
  assert (Ha : (list_to_map vals ∪ r : row) !! "author" = r !! "author")
    by (apply lookup_union_r, Hro; set_solver).
  assert (Ht : (list_to_map vals ∪ r : row) !! "title" = r !! "title")
    by (apply lookup_union_r, Hro; set_solver).
  eexists. rewrite rows_insert_eq, lookup_insert_eq.
  split; [done|]. split; [done|]. split; [done|]. split; [|split].
  - intros k Hne. by rewrite ?rows_insert_eq, lookup_insert_ne.
  - intros m Hne. by rewrite rows_insert_ne.
  - intros Hinv k1 k2 r1 r2. rewrite ?rows_insert_eq.
    destruct (decide (k1 = pk)) as [->|H1], (decide (k2 = pk)) as [->|H2];
      rewrite ?lookup_insert_eq, ?lookup_insert_ne by done; [done|..].
    + intros [= <-] H2' Ht' Ha'. apply (Hinv _ _ _ _ Hr H2'); congruence.
    + intros H1' [= <-] Ht' Ha'. apply (Hinv _ _ _ _ H1' Hr); congruence.
    + apply Hinv.
Qed.

Lemma review_update_keeps_pair_witness :
  ∃ d' r',
    review_save_update true Sample.store (Sample.ctx "PATCH") 3
      {[ "text" := PStr "On second thought"; "author" := PStr "mallory";
         "title" := PStr "Stalker" ]} = Ok d' ∧
    rows d' Review !! 3 = Some r' ∧
    r' !! "author" = Some (PInt 7) ∧ r' !! "title" = Some (PInt 1).
Proof.
  assert (Hs : ∃ d',
    review_save_update true Sample.store (Sample.ctx "PATCH") 3
      {[ "text" := PStr "On second thought"; "author" := PStr "mallory";
         "title" := PStr "Stalker" ]} = Ok d') by (eexists; reflexivity).
  destruct Hs as [d' Hs].
  destruct (review_update_keeps_pair true Sample.store (Sample.ctx "PATCH") 3
              _ d' Sample.praise eq_refl Hs) as (r' & Hr' & Ha & Ht & _).
  exists d', r'. split; [exact Hs|]. split; [exact Hr'|].
  split; [by rewrite Ha|by rewrite Ht].
Defined.

(** X10.  A [create] that succeeds stores a new user under a primary
    key that was free: the row holds every validated value as validated
    and, as confirmation code, the printed form of
    [get_unique_confirmation_code]; no other row of any table changes. *)
Theorem create_stores_validated_data `{Imports}
    (create : db → row → result (db * Z))
    (d : db) (validated_data : row) (d' : db) (pk : Z) :
  create ∈ [UserSerializer.create; AdminOrSuperAdminUserSerializer.create] →
  validated_data !! "confirmation_code" = None →
  create d validated_data = Ok (d', pk) →
  rows d User !! pk = None ∧
  (∃ u, rows d' User !! pk = Some u ∧
        u !! "confirmation_code" =
          Some (PStr (str get_unique_confirmation_code)) ∧
        ∀ name v, validated_data !! name = Some v → u !! name = Some v) ∧
  (∀ k, k ≠ pk → rows d' User !! k = rows d User !! k) ∧
  (∀ m, m ≠ User → rows d' m = rows d m).
Proof.
  intros Hc Hcode. assert (create = UserSerializer.create) as ->.
  { elem_cases Hc; by subst. }
  unfold UserSerializer.create, objects_create.
  rewrite unique_constraints_User. cbn. intros [= <- <-].
  split; [apply not_elem_of_dom, is_fresh|]. split; [|split].
  - eexists. rewrite rows_insert_eq, lookup_insert_eq. split; [done|].
    split; [by rewrite lookup_insert_eq|].
    intros name v Hv. rewrite lookup_insert_ne; [done|]. congruence.
  - intros k Hne. by rewrite rows_insert_eq, lookup_insert_ne.
  - intros m Hne. by rewrite rows_insert_ne.
Qed.

Lemma create_stores_validated_data_witness :
  ∃ d' u,
    UserSerializer.create Sample.store Sample.bob = Ok (d', 8) ∧
    rows Sample.store User !! 8 = None ∧
    rows d' User !! 8 = Some u ∧
    u !! "confirmation_code" =
      Some (PStr "<function get_unique_confirmation_code at 0x7f3a5c1d2e50>") ∧
    u !! "username" = Some (PStr "bob") ∧
    rows d' User !! 7 = Some Sample.alice.
Proof.
  assert (Hs : ∃ d', UserSerializer.create Sample.store Sample.bob = Ok (d', 8))
    by (eexists; reflexivity).
  destruct Hs as [d' Hs].
  destruct (create_stores_validated_data UserSerializer.create
              Sample.store Sample.bob d' 8)
    as (Hfree & (u & Hu & Hcode & Hsame) & Hk & _);
    [left | reflexivity | exact Hs |].
  exists d', u. split; [exact Hs|]. split; [exact Hfree|]. split; [exact Hu|].
  split; [exact Hcode|]. split; [by apply Hsame|by rewrite Hk].
Defined.

(** ** The user serializers at work *)

Section Defaults.
Context `{Framework}.

(** Without [partial], a writable field that is not submitted takes its
    declared default. *)
Lemma to_internal_value_default m fs data errs vals name f v :
  to_internal_value false m fs data = (errs, vals) →
  (name, f) ∈ fs → read_only f = false →
  data !! name = None → field_default f = Some v →
  (name, v) ∈ vals.
Proof.
  revert errs vals. induction fs as [|[n f0] fs IH]; intros errs vals; cbn.
  - intros _ Hin. by apply elem_of_nil in Hin.
  - destruct (to_internal_value false m fs data) as [errs0 vals0].
    intros Heq Hin Hro Hv Hd.
    assert (Hrec : (name, f) ∈ fs → (name, v) ∈ vals0) by (intros; by eapply IH).
    apply elem_of_cons in Hin as [[= <- <-]|Hin].
    + rewrite Hro, Hv, Hd in Heq. injection Heq as <- <-. by left.
    + destruct (read_only f0); [injection Heq as <- <-; by apply Hrec|].
      destruct (data !! n) as [w|].
      * destruct (run_field_validation n f0 w); injection Heq as <- <-;
          [|right]; by apply Hrec.
      * destruct (field_default f0); [injection Heq as <- <-; right; by apply Hrec|].
        destruct (required m n f0); injection Heq as <- <-; by apply Hrec.
Qed.

End Defaults.

Lemma get_fields_Admin :
  get_fields AdminOrSuperAdminUserSerializer.Meta =
  [ ("email", EmailField 254);
    ("username", CharField 150 false None);
    ("first_name", ModelField false);
    ("last_name", ModelField false);
    ("bio", ModelField false);
    ("role", CharField 15 false (Some "user")) ].
Proof. reflexivity. Qed.

(** X11.  When the role [user] is listed in [CHOICE_ROLES], the admin
    serializer never validates the data of a new user that leave the role
    out: the declared default [user] is itself refused by [validate]. *)
Theorem admin_default_role_refused `{Imports, Framework}
    (d : db) (data : row) (c : choice) :
  c ∈ CHOICE_ROLES → contains "user" c = true →
  data !! "role" = None →
  is_ok (admin_run_validation d data) = false.
Proof.
  intros Hc Hu Hrole. unfold admin_run_validation, run_validation.
  destruct (to_internal_value _ _ _ _) as [errs vals] eqn:Hint.
  destruct errs as [|e errs]; [|done].
  destruct (run_validators _ _ _ _); [|done]. cbn [Py.bind].
  assert (Hr : (list_to_map vals : row) !! "role" = Some (PStr "user")).
  { apply elem_of_list_to_map_1.
    - eapply sublist_NoDup; [|by eapply to_internal_value_sublist].
      rewrite get_fields_Admin. cbn. apply NoDup_ListNoDup.
      repeat (constructor; [cbn; intuition discriminate|]). constructor.
    - eapply (to_internal_value_default _ _ _ _ _ "role"
                (CharField 15 false (Some "user"))); [exact Hint| |done..].
      rewrite get_fields_Admin. repeat first [by left | right]. }
  unfold AdminOrSuperAdminUserSerializer.validate.
  destruct (username_validate _); [|done]. cbn [Py.bind].
  destruct (email_validate _); [|done]. cbn [Py.bind].
  unfold Py.get. rewrite Hr.
  change (str (default PNone (Some (PStr "user")))) with "user".
  assert (existsb (fun i => contains "user" i) CHOICE_ROLES = true) as ->; [|done].
  apply existsb_contains. eauto.
Qed.

Lemma admin_default_role_refused_witness :
  is_ok (admin_run_validation Sample.store Sample.bob) = false.
Proof.
  apply (admin_default_role_refused Sample.store Sample.bob
           (ChoiceTuple ["user"; "user"])); [left | reflexivity | reflexivity].
Defined.

(** X12.  A missing username reaches the username validator as the text
    [None]: each [validate] gives data without a username the verdict it
    gives the same data with the username [None]. *)
Theorem missing_username_is_None `{Imports} (data : row) :
  data !! "username" = None →
  let data' := <["username" := PStr "None"]> data in
  is_ok (UserSerializer.validate data') = is_ok (UserSerializer.validate data) ∧
  is_ok (MeSerializer.validate data') = is_ok (MeSerializer.validate data) ∧
  is_ok (AdminOrSuperAdminUserSerializer.validate data') =
    is_ok (AdminOrSuperAdminUserSerializer.validate data) ∧
  is_ok (SignUpSerializer.validate data') = is_ok (SignUpSerializer.validate data) ∧
  is_ok (TokenSerializer.validate data') = is_ok (TokenSerializer.validate data).
Proof.
  intros Hu data'. subst data'.
  unfold UserSerializer.validate, MeSerializer.validate,
    AdminOrSuperAdminUserSerializer.validate, SignUpSerializer.validate,
    TokenSerializer.validate, Py.get.
  rewrite lookup_insert_eq, !lookup_insert_ne, Hu by done.
  cbn [from_option id str].
  repeat split;
    repeat match goal with
           | |- context [Py.bind ?r _] => destruct r; cbn [Py.bind is_ok]
           | |- context [if ?b then _ else _] => destruct b; cbn [is_ok]
           end; done.
Qed.

Lemma missing_username_is_None_witness :
  is_ok (MeSerializer.validate {[ "username" := PStr "None";
                                  "email" := PStr "alice@example.com" ]}) =
  is_ok (MeSerializer.validate {[ "email" := PStr "alice@example.com" ]}).
Proof.
  exact (proj1 (proj2 (missing_username_is_None
                         {[ "email" := PStr "alice@example.com" ]} eq_refl))).
Defined.

(** X13.  [TokenSerializer.validate] never looks at what the confirmation
    code is: two codes that are not [None] get the same verdict. *)
Theorem token_code_value_irrelevant `{Imports} (data : row) (c1 c2 : value) :
  c1 ≠ PNone → c2 ≠ PNone →
  is_ok (TokenSerializer.validate (<["confirmation_code" := c1]> data)) =
  is_ok (TokenSerializer.validate (<["confirmation_code" := c2]> data)).
Proof.
  intros H1 H2. unfold TokenSerializer.validate, Py.get.
  rewrite !lookup_insert_eq, !lookup_insert_ne by done. cbn [from_option id].
  rewrite !decide_False by done.
  by destruct (username_validate _).
Qed.

Lemma token_code_value_irrelevant_witness :
  is_ok (TokenSerializer.validate
           (<["confirmation_code" := PStr "right"]> {[ "username" := PStr "alice" ]})) =
  is_ok (TokenSerializer.validate
           (<["confirmation_code" := PStr "wrong"]> {[ "username" := PStr "alice" ]})).
Proof.
  apply (token_code_value_irrelevant {[ "username" := PStr "alice" ]}
           (PStr "right") (PStr "wrong")); discriminate.
Defined.

Section Profiles.
Implicit Types (d : db) (pk : Z) (u : row).

Lemma get_fields_User :
  get_fields UserSerializer.Meta =
  [ ("email", EmailField 254);
    ("username", CharField 150 false None);
    ("first_name", ModelField false);
    ("last_name", ModelField false);
    ("bio", ModelField false);
    ("role", ModelField false) ].
Proof. reflexivity. Qed.

Lemma render_char_field d n ro dflt v :
  render d (CharField n ro dflt) (AValue v) = Rendered (shown v).
Proof. by destruct v. Qed.

Lemma render_email_field d n v :
  render d (EmailField n) (AValue v) = Rendered (shown v).
Proof. by destruct v. Qed.

(** The six attributes a user serializer reads are columns of the user. *)
Lemma get_attribute_user d pk u name :
  name ∈ ["email"; "username"; "first_name"; "last_name"; "bio"; "role"] →
  get_attribute d User pk u name = AValue (Py.get u name).
Proof. intros Hn. elem_cases Hn; by subst. Qed.

End Profiles.

(** X14.  The three profile serializers render a user whose columns hold
    text (or nothing) as the six keys [email], [username], [first_name],
    [last_name], [bio] and [role], in this order, each with the stored
    value: the role is shown, the confirmation code never is. *)
Theorem profile_representation (d : db) (pk : Z) (u : row) :
  (∀ name, name ∈ ["email"; "username"; "first_name"; "last_name"; "bio"; "role"] →
           Py.get u name = PNone ∨ ∃ s, Py.get u name = PStr s) →
  let profile := Some [ ("email", Py.get u "email");
                        ("username", Py.get u "username");
                        ("first_name", Py.get u "first_name");
                        ("last_name", Py.get u "last_name");
                        ("bio", Py.get u "bio");
                        ("role", Py.get u "role") ] in
  to_representation UserSerializer.Meta d pk u = profile ∧
  to_representation MeSerializer.Meta d pk u = profile ∧
  to_representation AdminOrSuperAdminUserSerializer.Meta d pk u = profile.
Proof.
  intros Htext profile. subst profile.
  assert (Hshown : ∀ name,
            name ∈ ["email"; "username"; "first_name"; "last_name"; "bio"; "role"] →
            shown (Py.get u name) = Py.get u name).
  { intros name Hn. by destruct (Htext name Hn) as [->|[s ->]]. }
  unfold to_representation.
  rewrite get_fields_Me, get_fields_Admin, get_fields_User.
  change (model MeSerializer.Meta) with User.
  change (model AdminOrSuperAdminUserSerializer.Meta) with User.
  change (model UserSerializer.Meta) with User.
  cbn [represent].
  rewrite !get_attribute_user by (repeat first [by left | right]).
  rewrite !render_char_field, !render_email_field, !render_model_field.
  rewrite !Hshown by (repeat first [by left | right]). done.
Qed.

Lemma profile_representation_witness :
  to_representation MeSerializer.Meta Sample.store 7 Sample.alice =
  Some [ ("email", PStr "alice@example.com");
         ("username", PStr "alice");
         ("first_name", PStr "");
         ("last_name", PStr "");
         ("bio", PStr "");
         ("role", PStr "user") ].
Proof.
  apply (profile_representation Sample.store 7 Sample.alice).
  intros name Hn. right. elem_cases Hn; subst name; by eexists.
Defined.

(** ** Requests for a token *)

Lemma get_fields_Token `{Imports} :
  get_fields TokenSerializer.Meta =
  [ ("username", CharField 150 false None);
    ("confirmation_code", CharField MAX_CODE_LENGTH false None) ].
Proof. reflexivity. Qed.

(** X15.  Through the serializer, a request for a token without a
    confirmation code is refused by the field, "This field is required.";
    and as long as the cleaning of the code never yields [None], every
    error is a field error or comes from the username validator: the check
    for an empty code in [validate] never fires. *)
Theorem token_errors `{Imports, Framework} (d : db) (data : row) :
  (∀ v v', run_field_validation "confirmation_code"
             (CharField MAX_CODE_LENGTH false None) v = inr v' → v' ≠ PNone) →
  (data !! "confirmation_code" = None →
   ∃ errs, token_run_validation d data = Raise (ValidationErrors errs) ∧
           ("confirmation_code", "This field is required.") ∈ errs) ∧
  (∀ e, token_run_validation d data = Raise e →
        (∃ errs, e = ValidationErrors errs) ∨
        (∃ s, username_validate s = Raise e)).
Proof.
  intros Hclean.
  unfold token_run_validation, run_validation.
  rewrite get_fields_Token. cbn [to_internal_value Drf.read_only].
  change (model TokenSerializer.Meta) with User.
  split.
  - intros ->. cbn.
    destruct (data !! "username") as [v|];
      [destruct (run_field_validation _ _ v)|];
      eexists; (split; [done|]); set_solver.
  - intros e.
    destruct (data !! "confirmation_code") as [c|];
      [destruct (run_field_validation _ _ c) as [ec|c'] eqn:Hc|];
      (destruct (data !! "username") as [v|];
        [destruct (run_field_validation _ _ v) as [ev|v']|]);
      cbn; try (intros [= <-]; left; eauto; fail).
    unfold TokenSerializer.validate, Py.get.
    rewrite lookup_insert_ne, lookup_insert_eq by done. cbn [from_option id].
    rewrite decide_False by by eapply Hclean.
    destruct (username_validate _) eqn:Hu; [done|]. cbn.
    intros [= <-]. right. eauto.
Qed.

Lemma token_errors_witness :
  ∃ errs, token_run_validation Sample.store ∅ = Raise (ValidationErrors errs) ∧
          ("confirmation_code", "This field is required.") ∈ errs.
Proof.
  apply (token_errors Sample.store ∅); [|reflexivity].
  intros v v' Hv. cbn in Hv. by destruct v; simplify_eq.
Defined.

(** ** The pair of username and email *)

Section UniquePair.
Implicit Types (d : db) (attrs : list (string * value)).

(** Reading a key of an ordered dictionary. *)
Lemma find_key attrs name v :
  NoDup attrs.*1 → (name, v) ∈ attrs →
  List.find (fun kv => String.eqb kv.1 name) attrs = Some (name, v).
Proof.
  induction attrs as [|[n w] attrs IH]; cbn; intros Hnd Hin.
  - by apply elem_of_nil in Hin.
  - apply NoDup_cons in Hnd as [Hn Hnd].
    apply elem_of_cons in Hin as [[= <- <-]|Hin].
    + by rewrite String.eqb_refl.
    + destruct (String.eqb n name) eqn:He; [|by apply IH].
      apply String.eqb_eq in He as ->. destruct Hn.
      apply list_elem_of_fmap. by exists (name, v).
Qed.

End UniquePair.

(** X16.  The validator of [Meta.validators] refuses validated data whose
    username and email are those of one stored user other than the instance
    being updated, and nothing else: the same username with another email
    passes. *)
Theorem user_pair_must_be_unique (d : db) (instance : option (Z * row))
    (attrs : list (string * value)) (u e : value) :
  NoDup attrs.*1 →
  ("username", u) ∈ attrs → ("email", e) ∈ attrs →
  u ≠ PNone → e ≠ PNone →
  let taken := ∃ k r, rows d User !! k = Some r ∧
                      r !! "username" = Some u ∧ r !! "email" = Some e ∧
                      fst <$> instance ≠ Some k in
  (run_validators d instance UserSerializer.validators attrs =
     Raise (ValidationError "The fields username, email must make a unique set.")
   ↔ taken) ∧
  (run_validators d instance UserSerializer.validators attrs = Ok () ↔ ¬ taken).
Proof.
  intros Hnd Hu He Hun Hen taken.
  assert (Hpu : bool_decide ("username" ∈ attrs.*1) = true).
  { apply bool_decide_eq_true, list_elem_of_fmap. by exists ("username", u). }
  assert (Hpe : bool_decide ("email" ∈ attrs.*1) = true).
  { apply bool_decide_eq_true, list_elem_of_fmap. by exists ("email", e). }
  unfold UserSerializer.validators. cbn [run_validators].
  unfold run_unique_together. cbn [ut_fields queryset List.filter].
  rewrite Hpu, Hpe. cbn [negb List.filter fmap list_fmap].
  rewrite (find_key attrs "username" u), (find_key attrs "email" e) by done.
  cbn [snd].
  change ("The fields " ++ String.concat ", " ["username"; "email"]
            ++ " must make a unique set.")
    with "The fields username, email must make a unique set.".
  assert (bool_decide (PNone ∈ [u; e]) = false) as ->.
  { apply bool_decide_eq_false. intros Hin. elem_cases Hin; by subst. }
  cbn [negb andb].
  set (found := objects_filter d User [("username", u); ("email", e)]).
  assert (Hfound : ∀ k r, found !! k = Some r ↔
            rows d User !! k = Some r ∧
            r !! "username" = Some u ∧ r !! "email" = Some e).
  { intros k r. subst found. rewrite objects_filter_lookup. unfold matches.
    rewrite !Forall_cons, Forall_nil. naive_solver. }
  assert (Hothers :
    exists_ match instance with
            | Some (pk, _) => delete pk found
            | None => found
            end = true ↔ taken).
  { rewrite exists_iff. subst taken. destruct instance as [[pk r0]|]; cbn.
    - setoid_rewrite lookup_delete_Some. setoid_rewrite Hfound.
      split; intros (k & r & H); exists k, r; naive_solver.
    - setoid_rewrite Hfound.
      split; intros (k & r & H); exists k, r; naive_solver. }
  assert (Hsame : ∀ X : result unit,
            match instance with Some _ | _ => X end = X)
    by (intros X; by destruct instance).
  rewrite Hsame.
  destruct (exists_ _) eqn:Hex; cbn [Py.bind];
    [assert taken by (by apply Hothers)
    |assert (¬ taken) by (rewrite <- Hothers; congruence)];
    split; split; done.
Qed.

Lemma user_pair_must_be_unique_witness :
  run_validators Sample.store None UserSerializer.validators
    [("email", PStr "alice@example.com"); ("username", PStr "alice")] =
    Raise (ValidationError "The fields username, email must make a unique set.") ∧
  run_validators Sample.store None UserSerializer.validators
    [("email", PStr "alice@example.org"); ("username", PStr "alice")] = Ok ().
Proof.
  split.
  - apply (user_pair_must_be_unique Sample.store None
             [("email", PStr "alice@example.com"); ("username", PStr "alice")]
             (PStr "alice") (PStr "alice@example.com"));
      [apply NoDup_ListNoDup; repeat (constructor; [cbn; intuition discriminate|]);
       constructor
      | right; left | left | discriminate | discriminate |].
    exists 7, Sample.alice. repeat split; discriminate.
  - apply (user_pair_must_be_unique Sample.store None
             [("email", PStr "alice@example.org"); ("username", PStr "alice")]
             (PStr "alice") (PStr "alice@example.org"));
      [apply NoDup_ListNoDup; repeat (constructor; [cbn; intuition discriminate|]);
       constructor
      | right; left | left | discriminate | discriminate |].
    intros (k & r & Hr & _ & He & _).
    change (rows Sample.store User) with ({[ 7 := Sample.alice ]} : table) in Hr.
    apply lookup_singleton_Some in Hr as [_ <-]. by vm_compute in He.
Defined.
